(** * vhsdecode/formats.py: VHS parameter sets derived from the laserdisc ones

    The module copies the four parameter dicts of [lddecode.core] with
    [{**d}] and overrides some of their entries with subscript assignments.
    The embedding keeps Python's object model where the module relies on it:
    dicts live in a heap and are reached through references, so that copying,
    aliasing and in-place update can be told apart; numbers are unbounded
    integers and IEEE 754 binary64 floats. *)

From Stdlib Require Import ZArith.
From Stdlib Require Floats.SpecFloat.
From stdpp Require Import gmap strings list fin_maps.

Open Scope Z_scope.

(** ** Exceptions and the two monads *)

Inductive exn :=
| ImportError
| NameError
| TypeError
| KeyError
| AttributeError
| ZeroDivisionError
| OverflowError.

(** An expression either raises or yields a value. *)
Definition result (A : Type) : Type := exn + A.

#[global] Instance result_ret : MRet result := λ A x, inr x.
#[global] Instance result_bind : MBind result :=
  λ A B f m, match m with inl e => inl e | inr x => f x end.

#[global] Instance result_fmap : FMap result :=
  λ A B f m, match m with inl e => inl e | inr x => inr (f x) end.

(** ** Numbers *)

Module Num.
Import SpecFloat.

(** CPython's [float] is the C double: binary64. *)
Definition prec : Z := 53.
Definition emax : Z := 1024.

Inductive num :=
| Int (n : Z)
| Float (x : spec_float).

(** An integer as an unrounded binary number. *)
Definition exact (n : Z) : spec_float :=
  match n with
  | 0 => S754_zero false
  | Zpos p => S754_finite false p 0
  | Zneg p => S754_finite true p 0
  end.

Definition finite_or_overflow (x : spec_float) : result spec_float :=
  match x with
  | S754_infinity _ => inl OverflowError
  | _ => inr x
  end.

(** The double nearest to an integer (ties to even). *)
Definition nearest (n : Z) : spec_float := binary_normalize prec emax n 0 false.

(** [float(n)]: the nearest double, [OverflowError] past the range. *)
Definition float_of_int (n : Z) : result spec_float :=
  finite_or_overflow (nearest n).

Definition is_zero (x : spec_float) : bool :=
  match x with S754_zero _ => true | _ => false end.

(** A decimal literal [m]e[-k], such as [1.001] = 1001e-3, denotes the
    double nearest to m / 10^k. *)
Definition decimal (m : Z) (k : nat) : spec_float :=
  SFdiv prec emax (exact m) (exact (10 ^ Z.of_nat k)).

Definition float_truediv (x y : spec_float) : result spec_float :=
  if is_zero y then inl ZeroDivisionError else inr (SFdiv prec emax x y).

(** [x + y] *)
Definition add (x y : num) : result num :=
  match x, y with
  | Int a, Int b => inr (Int (a + b))
  | Int a, Float b => a' ← float_of_int a; inr (Float (SFadd prec emax a' b))
  | Float a, Int b => b' ← float_of_int b; inr (Float (SFadd prec emax a b'))
  | Float a, Float b => inr (Float (SFadd prec emax a b))
  end.

(** [x * y] *)
Definition mul (x y : num) : result num :=
  match x, y with
  | Int a, Int b => inr (Int (a * b))
  | Int a, Float b => a' ← float_of_int a; inr (Float (SFmul prec emax a' b))
  | Float a, Int b => b' ← float_of_int b; inr (Float (SFmul prec emax a b'))
  | Float a, Float b => inr (Float (SFmul prec emax a b))
  end.

(** [x / y]: true division, always a float. Two integers are divided
    exactly and rounded once. *)
Definition truediv (x y : num) : result num :=
  match x, y with
  | Int a, Int b =>
      if decide (b = 0) then inl ZeroDivisionError
      else q ← finite_or_overflow (SFdiv prec emax (exact a) (exact b));
           inr (Float q)
  | Int a, Float b => a' ← float_of_int a; Float <$> float_truediv a' b
  | Float a, Int b => b' ← float_of_int b; Float <$> float_truediv a b'
  | Float a, Float b => Float <$> float_truediv a b
  end.
End Num.

Export Num(num, Int, Float).

(** ** Objects, references and the heap *)

Definition addr := positive.

(** A value is a number or a reference to a heap object. Numbers are
    immutable in Python, so holding them by value loses nothing. *)
Inductive value :=
| VNum (n : num)
| VRef (a : addr).

Inductive object :=
| ODict (d : gmap string value)
| OList (xs : list value)
| OTuple (xs : list value).

Record state := State {
  globals : gmap string value;
  heap : gmap addr object
}.

(** A statement runs on the interpreter state and may raise. *)
Definition M (A : Type) : Type := state → result (A * state).

#[global] Instance M_ret : MRet M := λ A x s, inr (x, s).
#[global] Instance M_bind : MBind M :=
  λ A B f m s, match m s with inl e => inl e | inr (x, s') => f x s' end.

Definition raise {A} (e : exn) : M A := λ _, inl e.

Definition lift {A} (r : result A) : M A :=
  λ s, match r with inl e => inl e | inr x => inr (x, s) end.

(** Reading and binding a module-level name. *)
Definition load_name (x : string) : M value :=
  λ s, match globals s !! x with
       | Some v => inr (v, s)
       | None => inl NameError
       end.

Definition store_name (x : string) (v : value) : M unit :=
  λ s, inr (tt, State (<[x := v]> (globals s)) (heap s)).

(** [from module import x1, x2, ...] binds each name to the object the
    module's namespace holds for it. *)
Fixpoint import_from (module : gmap string value) (names : list string) : M unit :=
  match names with
  | [] => mret tt
  | x :: names' =>
      match module !! x with
      | Some v => store_name x v ;; import_from module names'
      | None => raise ImportError
      end
  end.

(** A new object gets an address no live object has. *)
Definition alloc (o : object) : M value :=
  λ s, let a := fresh (dom (heap s)) in
       inr (VRef a, State (globals s) (<[a := o]> (heap s))).

(** [{**v}]: a new dict with the items of the mapping [v]. The items are
    the same values, so a reference is copied as a reference. Anything
    that is not a dict is not a mapping here. *)
Definition dict_unpack (v : value) : M value :=
  λ s, match v with
       | VRef a =>
           match heap s !! a with
           | Some (ODict d) => alloc (ODict d) s
           | _ => inl TypeError
           end
       | VNum _ => inl TypeError
       end.

(** [target[key] = v] with a string key: updates the dict in place; lists,
    tuples and numbers refuse it. *)
Definition setitem (target : value) (key : string) (v : value) : M unit :=
  λ s, match target with
       | VRef a =>
           match heap s !! a with
           | Some (ODict d) =>
               inr (tt, State (globals s) (<[a := ODict (<[key := v]> d)]> (heap s)))
           | _ => inl TypeError
           end
       | VNum _ => inl TypeError
       end.

(** The two statement forms of the module. *)

(** [dst = {**src}] *)
Definition assign_copy (dst src : string) : M unit :=
  b ← load_name src; d ← dict_unpack b; store_name dst d.

(** [name[key] = rhs]: the right-hand side is evaluated first. *)
Definition assign_subscript (name key : string) (rhs : result num) : M unit :=
  v ← lift rhs; t ← load_name name; setitem t key (VNum v).

(** Two operations of a client that holds one of the dicts: reading an
    entry, and appending to a list. *)

(** [target[key]] with a string key *)
Definition getitem (target : value) (key : string) : M value :=
  λ s, match target with
       | VRef a =>
           match heap s !! a with
           | Some (ODict d) =>
               match d !! key with
               | Some v => inr (v, s)
               | None => inl KeyError
               end
           | _ => inl TypeError
           end
       | VNum _ => inl TypeError
       end.

(** [target.append(v)] *)
Definition list_append (target v : value) : M unit :=
  λ s, match target with
       | VRef a =>
           match heap s !! a with
           | Some (OList xs) =>
               inr (tt, State (globals s) (<[a := OList (xs ++ [v])]> (heap s)))
           | _ => inl AttributeError
           end
       | VNum _ => inl AttributeError
       end.

(** ** The module *)

(** Integer and float literals; [float_lit 1001 3] is [1.001] and
    [float_lit 1000 1] is [100.0]. *)
Definition int (n : Z) : result num := inr (Int n).

Definition float_lit (m : Z) (k : nat) : num := Float (Num.decimal m k).

(** [((625 * 25) * 40) + 1953] *)
Definition pal_color_under_carrier : result num :=
  x ← Num.mul (Int 625) (Int 25);
  y ← Num.mul x (Int 40);
  Num.add y (Int 1953).

(** [(525 * (30 / 1.001)) * 40] *)
Definition ntsc_color_under_carrier : result num :=
  q ← Num.truediv (Int 30) (float_lit 1001 3);
  x ← Num.mul (Int 525) q;
  Num.mul x (Int 40).

(** [700000 / 100.0] *)
Definition pal_hz_ire : result num :=
  Num.truediv (Int 700000) (float_lit 1000 1).

(** [715000 / 100.0] *)
Definition ntsc_hz_ire : result num :=
  Num.truediv (Int 715000) (float_lit 1000 1).

(** The statements of formats.py in source order; [lddecode_core] is the
    namespace of the imported module. *)
Definition formats_py (lddecode_core : gmap string value) : M unit :=
  import_from lddecode_core
    ["RFParams_PAL"; "RFParams_NTSC"; "SysParams_PAL"; "SysParams_NTSC"] ;;
  assign_copy "RFParams_PAL_VHS" "RFParams_PAL" ;;
  assign_copy "RFParams_NTSC_VHS" "RFParams_NTSC" ;;
  assign_subscript "RFParams_PAL_VHS" "video_bpf_low" (int 3550000) ;;
  assign_subscript "RFParams_PAL_VHS" "video_bpf_high" (int 5200000) ;;
  assign_subscript "RFParams_PAL_VHS" "video_bpf_order" (int 1) ;;
  assign_subscript "RFParams_PAL_VHS" "video_lpf_freq" (int 3600000) ;;
  assign_subscript "RFParams_PAL_VHS" "color_under_carrier" pal_color_under_carrier ;;
  assign_subscript "RFParams_NTSC_VHS" "video_bpf_low" (int 3300000) ;;
  assign_subscript "RFParams_NTSC_VHS" "video_bpf_high" (int 5000000) ;;
  assign_subscript "RFParams_NTSC_VHS" "video_bpf_order" (int 2) ;;
  assign_subscript "RFParams_NTSC_VHS" "video_lpf_freq" (int 3600000) ;;
  assign_subscript "RFParams_NTSC_VHS" "color_under_carrier" ntsc_color_under_carrier ;;
  assign_copy "SysParams_PAL_VHS" "SysParams_PAL" ;;
  assign_copy "SysParams_NTSC_VHS" "SysParams_NTSC" ;;
  assign_subscript "SysParams_PAL_VHS" "ire0" (int 4100000) ;;
  assign_subscript "SysParams_PAL_VHS" "hz_ire" pal_hz_ire ;;
  assign_subscript "SysParams_PAL_VHS" "max_ire" (int 100) ;;
  assign_subscript "SysParams_PAL_VHS" "burst_abs_ref" (int 750) ;;
  assign_subscript "SysParams_NTSC_VHS" "ire0" (int 3685000) ;;
  assign_subscript "SysParams_NTSC_VHS" "hz_ire" ntsc_hz_ire ;;
  assign_subscript "SysParams_NTSC_VHS" "max_ire" (int 100) ;;
  assign_subscript "SysParams_NTSC_VHS" "burst_abs_ref" (int 300).

(** The module starts with no names of its own, on whatever heap the
    imported module left. *)
Definition start (h : gmap addr object) : state := State ∅ h.

(** The dict a value refers to, if it refers to one. *)
Definition dict_of (s : state) (v : value) : option (gmap string value) :=
  match v with
  | VRef a =>
      match heap s !! a with
      | Some (ODict d) => Some d
      | _ => None
      end
  | VNum _ => None
  end.

(** The dict a module-level name refers to. *)
Definition dict_at (s : state) (name : string) : option (gmap string value) :=
  globals s !! name ≫= dict_of s.

(** *** The derivation idiom

    The module applies one idiom four times: copy a baseline dict, then
    assign the pairs of an override table one after the other. The spec
    calls it derive(baseline, overrides); here it is put together from the
    module's own two operations, and [formats_py_is_four_derivations]
    below shows that the module does what four runs of it do. *)

(** An override table: (field, value) pairs in the order of the
    assignments. *)
Definition table := list (string * value).

Fixpoint assign_all (target : value) (O : table) : M unit :=
  match O with
  | [] => mret tt
  | (k, v) :: O' => setitem target k v ;; assign_all target O'
  end.

(** [d = {**baseline}], then [d[k] = v] for each pair of [O]. *)
Definition derive (baseline : value) (O : table) : M value :=
  d ← dict_unpack baseline; assign_all d O ;; mret d.

(** What the assignments do to the contents of the dict. *)
Definition apply_overrides (B : gmap string value) (O : table) : gmap string value :=
  foldl (λ d kv, <[kv.1 := kv.2]> d) B O.

(** The value a table gives to a field: the last pair for it wins, as
    in a run of assignments. *)
Fixpoint table_get (O : table) (f : string) : option value :=
  match O with
  | [] => None
  | (k, v) :: O' =>
      match table_get O' f with
      | Some w => Some w
      | None => if decide (k = f) then Some v else None
      end
  end.

(** The override tables of the module, with the right-hand sides
    evaluated. *)
Definition rf_pal_overrides : table :=
  [("video_bpf_low", VNum (Int 3550000));
   ("video_bpf_high", VNum (Int 5200000));
   ("video_bpf_order", VNum (Int 1));
   ("video_lpf_freq", VNum (Int 3600000));
   ("color_under_carrier", VNum (Int 626953))].

(** 629370.6293706294 = 5406252540419581 * 2^-33 *)
Definition ntsc_carrier : num :=
  Float (SpecFloat.S754_finite false 5406252540419581 (-33)).

Definition rf_ntsc_overrides : table :=
  [("video_bpf_low", VNum (Int 3300000));
   ("video_bpf_high", VNum (Int 5000000));
   ("video_bpf_order", VNum (Int 2));
   ("video_lpf_freq", VNum (Int 3600000));
   ("color_under_carrier", VNum ntsc_carrier)].

(** The float for the integer [n]. *)
Definition whole (n : Z) : num := Float (Num.nearest n).

Definition sys_pal_overrides : table :=
  [("ire0", VNum (Int 4100000));
   ("hz_ire", VNum (whole 7000));
   ("max_ire", VNum (Int 100));
   ("burst_abs_ref", VNum (Int 750))].

Definition sys_ntsc_overrides : table :=
  [("ire0", VNum (Int 3685000));
   ("hz_ire", VNum (whole 7150));
   ("max_ire", VNum (Int 100));
   ("burst_abs_ref", VNum (Int 300))].

(** The four derivations of the module: new name, baseline name,
    override table. *)
Definition derivations : list (string * string * table) :=
  [("RFParams_PAL_VHS", "RFParams_PAL", rf_pal_overrides);
   ("RFParams_NTSC_VHS", "RFParams_NTSC", rf_ntsc_overrides);
   ("SysParams_PAL_VHS", "SysParams_PAL", sys_pal_overrides);
   ("SysParams_NTSC_VHS", "SysParams_NTSC", sys_ntsc_overrides)].

(** The module written with the idiom, one derivation after the other. *)
Definition derive_named (dst src : string) (O : table) : M unit :=
  b ← load_name src; d ← derive b O; store_name dst d.

Definition formats_py_derived (lddecode_core : gmap string value) : M unit :=
  import_from lddecode_core
    ["RFParams_PAL"; "RFParams_NTSC"; "SysParams_PAL"; "SysParams_NTSC"] ;;
  derive_named "RFParams_PAL_VHS" "RFParams_PAL" rf_pal_overrides ;;
  derive_named "RFParams_NTSC_VHS" "RFParams_NTSC" rf_ntsc_overrides ;;
  derive_named "SysParams_PAL_VHS" "SysParams_PAL" sys_pal_overrides ;;
  derive_named "SysParams_NTSC_VHS" "SysParams_NTSC" sys_ntsc_overrides.

(** *** What the module is given and what it leaves *)

(** The four imported names refer to dicts: [a1] .. [a4] are their
    addresses and [B1] .. [B4] their contents. *)
Definition baselines (core : gmap string value) (h : gmap addr object)
    (a1 a2 a3 a4 : addr) (B1 B2 B3 B4 : gmap string value) : Prop :=
  (core !! "RFParams_PAL" = Some (VRef a1) ∧ h !! a1 = Some (ODict B1)) ∧
  (core !! "RFParams_NTSC" = Some (VRef a2) ∧ h !! a2 = Some (ODict B2)) ∧
  (core !! "SysParams_PAL" = Some (VRef a3) ∧ h !! a3 = Some (ODict B3)) ∧
  (core !! "SysParams_NTSC" = Some (VRef a4) ∧ h !! a4 = Some (ODict B4)).

(** The names the import statement binds. *)
Definition imported (a1 a2 a3 a4 : addr) : gmap string value :=
  <["SysParams_NTSC" := VRef a4]> (<["SysParams_PAL" := VRef a3]>
  (<["RFParams_NTSC" := VRef a2]> (<["RFParams_PAL" := VRef a1]> ∅))).

(** The addresses the four copies get, in the order the module makes
    them. *)
Definition rf_pal_addr (h : gmap addr object) : addr := fresh (dom h).

Definition rf_ntsc_addr (h : gmap addr object) : addr :=
  fresh ({[rf_pal_addr h]} ∪ dom h).

Definition sys_pal_addr (h : gmap addr object) : addr :=
  fresh ({[rf_ntsc_addr h]} ∪ ({[rf_pal_addr h]} ∪ dom h)).

Definition sys_ntsc_addr (h : gmap addr object) : addr :=
  fresh ({[sys_pal_addr h]} ∪ ({[rf_ntsc_addr h]} ∪ ({[rf_pal_addr h]} ∪ dom h))).

(** The state the module leaves. *)
Definition final (h : gmap addr object) (a1 a2 a3 a4 : addr)
    (B1 B2 B3 B4 : gmap string value) : state :=
  State
    (<["SysParams_NTSC_VHS" := VRef (sys_ntsc_addr h)]>
     (<["SysParams_PAL_VHS" := VRef (sys_pal_addr h)]>
     (<["RFParams_NTSC_VHS" := VRef (rf_ntsc_addr h)]>
     (<["RFParams_PAL_VHS" := VRef (rf_pal_addr h)]>
     (imported a1 a2 a3 a4)))))
    (<[sys_ntsc_addr h := ODict (apply_overrides B4 sys_ntsc_overrides)]>
     (<[sys_pal_addr h := ODict (apply_overrides B3 sys_pal_overrides)]>
     (<[rf_ntsc_addr h := ODict (apply_overrides B2 rf_ntsc_overrides)]>
     (<[rf_pal_addr h := ODict (apply_overrides B1 rf_pal_overrides)]> h)))).

(** *** Sample inputs

    A heap as [lddecode.core] could leave it: four parameter dicts, one
    of them holding a list, one of them empty. *)

Definition sample_rf_pal : gmap string value :=
  <["video_bpf_low" := VNum (Int 2700000)]>
  (<["video_bpf_high" := VNum (Int 13500000)]>
  (<["video_lpf_freq" := VNum (Int 4800000)]>
  (<["video_deemp" := VRef 5%positive]>
  (<["foo" := VNum (Int 42)]> ∅)))).

Definition sample_rf_ntsc : gmap string value :=
  <["video_bpf_low" := VNum (Int 3400000)]>
  (<["color_under_carrier" := VNum (Int 0)]> ∅).

Definition sample_sys_pal : gmap string value :=
  <["ire0" := VNum (Int 7100000)]> (<["FPS" := VNum (Int 25)]> ∅).

Definition sample_sys_ntsc : gmap string value := ∅.

Definition sample_heap : gmap addr object :=
  <[1%positive := ODict sample_rf_pal]>
  (<[2%positive := ODict sample_rf_ntsc]>
  (<[3%positive := ODict sample_sys_pal]>
  (<[4%positive := ODict sample_sys_ntsc]>
  (<[5%positive := OList [VNum (Int 100); VNum (Int 400)]]> ∅)))).

Definition sample_core : gmap string value :=
  <["RFParams_PAL" := VRef 1%positive]>
  (<["RFParams_NTSC" := VRef 2%positive]>
  (<["SysParams_PAL" := VRef 3%positive]>
  (<["SysParams_NTSC" := VRef 4%positive]> ∅))).

(** A table whose pairs come in another order than in the module. *)
Definition sample_table : table :=
  [("video_bpf_order", VNum (Int 1));
   ("video_bpf_low", VNum (Int 3550000));
   ("bar", VNum (Int 7))].

(** The same pairs in a third order. *)
Definition sample_table_reordered : table :=
  [("bar", VNum (Int 7));
   ("video_bpf_order", VNum (Int 1));
   ("video_bpf_low", VNum (Int 3550000))].

(** *** The two halves of the module, and inputs of any shape *)

Definition imported_names : list string :=
  ["RFParams_PAL"; "RFParams_NTSC"; "SysParams_PAL"; "SysParams_NTSC"].

(** The statements from [SysParams_PAL_VHS = {**SysParams_PAL}] on. *)
Definition sys_part : M unit :=
  assign_copy "SysParams_PAL_VHS" "SysParams_PAL" ;;
  assign_copy "SysParams_NTSC_VHS" "SysParams_NTSC" ;;
  assign_subscript "SysParams_PAL_VHS" "ire0" (int 4100000) ;;
  assign_subscript "SysParams_PAL_VHS" "hz_ire" pal_hz_ire ;;
  assign_subscript "SysParams_PAL_VHS" "max_ire" (int 100) ;;
  assign_subscript "SysParams_PAL_VHS" "burst_abs_ref" (int 750) ;;
  assign_subscript "SysParams_NTSC_VHS" "ire0" (int 3685000) ;;
  assign_subscript "SysParams_NTSC_VHS" "hz_ire" ntsc_hz_ire ;;
  assign_subscript "SysParams_NTSC_VHS" "max_ire" (int 100) ;;
  assign_subscript "SysParams_NTSC_VHS" "burst_abs_ref" (int 300).

(** The names the import statement binds, whatever they refer to. *)
Definition imported_values (v1 v2 v3 v4 : value) : gmap string value :=
  <["SysParams_NTSC" := v4]> (<["SysParams_PAL" := v3]>
  (<["RFParams_NTSC" := v2]> (<["RFParams_PAL" := v1]> ∅))).

(** A reference is live when the heap has an object for it. Python has
    no other references. *)
Definition live (h : gmap addr object) (v : value) : Prop :=
  match v with
  | VRef a => is_Some (h !! a)
  | VNum _ => True
  end.

(** What the imported module offers under the four names is live. *)
Definition live_names (core : gmap string value) (h : gmap addr object) : Prop :=
  ∀ x v, x ∈ imported_names → core !! x = Some v → live h v.


(** More sample inputs: a namespace that lacks [SysParams_NTSC], one
    whose [SysParams_PAL] is a list, and one that offers a fifth name. *)
Definition sample_core_short : gmap string value :=
  <["RFParams_PAL" := VRef 1%positive]>
  (<["RFParams_NTSC" := VRef 2%positive]>
  (<["SysParams_PAL" := VRef 3%positive]> ∅)).

Definition sample_core_list : gmap string value :=
  <["SysParams_PAL" := VRef 5%positive]> sample_core.


(** A second table, for a derivation from a derived dict. *)
Definition sample_table_2 : table :=
  [("video_bpf_low", VNum (Int 3000000)); ("baz", VRef 5%positive)].

(** ** Evaluation of the right-hand sides *)

Lemma pal_color_under_carrier_value : pal_color_under_carrier = inr (Int 626953).
Proof. reflexivity. Qed.

Lemma ntsc_color_under_carrier_value : ntsc_color_under_carrier = inr ntsc_carrier.
Proof. vm_compute. reflexivity. Qed.

Lemma pal_hz_ire_value : pal_hz_ire = inr (whole 7000).
Proof. vm_compute. reflexivity. Qed.

Lemma ntsc_hz_ire_value : ntsc_hz_ire = inr (whole 7150).
Proof. vm_compute. reflexivity. Qed.

(** The literal [1.001] is the double 0x1.004189374bc6ap+0. *)
Lemma literal_1_001 :
  Num.decimal 1001 3 = SpecFloat.S754_finite false 0x1004189374bc6a (-52).
Proof. vm_compute. reflexivity. Qed.

(** [whole n] holds [n] itself when [n] is small: 7150.0 is
    7861508138598400 * 2^-40. *)
Lemma whole_7150 :
  whole 7150 = Float (SpecFloat.S754_finite false (7150 * 2 ^ 40) (-40)).
Proof. vm_compute. reflexivity. Qed.

(** ** Running single statements *)

(** Looks a key up through a stack of inserts whose keys are known to
    be equal or different. *)
Ltac insert_lookups :=
  repeat (rewrite lookup_insert_eq || rewrite lookup_insert_ne by done);
  simpl;
  repeat (rewrite lookup_insert_eq || rewrite lookup_insert_ne by done).

Lemma bind_run {A B} (m : M A) (f : A → M B) s x s' :
  m s = inr (x, s') → (m ≫= f) s = f x s'.
Proof. intros H. unfold mbind, M_bind. by rewrite H. Qed.

Lemma assign_copy_run dst src s a B :
  globals s !! src = Some (VRef a) →
  heap s !! a = Some (ODict B) →
  assign_copy dst src s =
    inr (tt, State (<[dst := VRef (fresh (dom (heap s)))]> (globals s))
                   (<[fresh (dom (heap s)) := ODict B]> (heap s))).
Proof.
  intros Hg Hh. unfold assign_copy.
  erewrite bind_run; last by (unfold load_name; rewrite Hg).
  erewrite bind_run; last by (unfold dict_unpack; rewrite Hh).
  reflexivity.
Qed.

Lemma assign_subscript_run name key rhs v s a d :
  rhs = inr v →
  globals s !! name = Some (VRef a) →
  heap s !! a = Some (ODict d) →
  assign_subscript name key rhs s =
    inr (tt, State (globals s) (<[a := ODict (<[key := VNum v]> d)]> (heap s))).
Proof.
  intros -> Hg Hh. unfold assign_subscript.
  erewrite bind_run; last reflexivity.
  erewrite bind_run; last by (unfold load_name; rewrite Hg).
  unfold setitem. by rewrite Hh.
Qed.

(** An assignment through a name whose dict was the last one written:
    the heap keeps a single entry for it. *)
Lemma assign_subscript_top name key rhs v g a d h :
  rhs = inr v →
  g !! name = Some (VRef a) →
  assign_subscript name key rhs (State g (<[a := ODict d]> h)) =
    inr (tt, State g (<[a := ODict (<[key := VNum v]> d)]> h)).
Proof.
  intros Hr Hg.
  erewrite assign_subscript_run; [|done|done|apply lookup_insert_eq].
  simpl. by rewrite insert_insert_eq.
Qed.

(** ** The whole module *)

Section Module_run.
Variable core : gmap string value.
Variable h : gmap addr object.
Variables a1 a2 a3 a4 : addr.
Variables B1 B2 B3 B4 : gmap string value.
Hypothesis Hb : baselines core h a1 a2 a3 a4 B1 B2 B3 B4.

Lemma new_addrs_fresh :
  NoDup [rf_pal_addr h; rf_ntsc_addr h; sys_pal_addr h; sys_ntsc_addr h] ∧
  ∀ r, r ∈ [rf_pal_addr h; rf_ntsc_addr h; sys_pal_addr h; sys_ntsc_addr h] →
       h !! r = None.
Proof using Type.
  pose proof (is_fresh (dom h)) as H1.
  pose proof (is_fresh ({[rf_pal_addr h]} ∪ dom h)) as H2.
  pose proof (is_fresh ({[rf_ntsc_addr h]} ∪ ({[rf_pal_addr h]} ∪ dom h))) as H3.
  pose proof (is_fresh ({[sys_pal_addr h]} ∪
    ({[rf_ntsc_addr h]} ∪ ({[rf_pal_addr h]} ∪ dom h)))) as H4.
  fold (rf_pal_addr h) in H1. fold (rf_ntsc_addr h) in H2.
  fold (sys_pal_addr h) in H3. fold (sys_ntsc_addr h) in H4.
  rewrite !not_elem_of_union, !not_elem_of_singleton in H2.
  rewrite !not_elem_of_union, !not_elem_of_singleton in H3.
  rewrite !not_elem_of_union, !not_elem_of_singleton in H4.
  destruct H2 as [H21 H2], H3 as (H32 & H31 & H3), H4 as (H43 & H42 & H41 & H4).
  split.
  - rewrite !NoDup_cons, !not_elem_of_cons, !elem_of_nil.
    repeat split; try done; try (intros []); apply NoDup_nil_2.
  - intros r. rewrite !elem_of_cons, elem_of_nil.
    intros [->|[->|[->|[->|[]]]]]; by apply not_elem_of_dom.
Qed.

(** An object that was there before the module ran is none of the new
    dicts. *)
Lemma old_addr_not_new a o :
  h !! a = Some o →
  a ≠ rf_pal_addr h ∧ a ≠ rf_ntsc_addr h ∧ a ≠ sys_pal_addr h ∧ a ≠ sys_ntsc_addr h.
Proof using Type.
  destruct new_addrs_fresh as [_ Hnew].
  intros Ha. repeat split; intros ->;
    rewrite Hnew in Ha; try done; rewrite !elem_of_cons; auto.
Qed.

Lemma import_run :
  import_from core
    ["RFParams_PAL"; "RFParams_NTSC"; "SysParams_PAL"; "SysParams_NTSC"]
    (start h) = inr (tt, State (imported a1 a2 a3 a4) h).
Proof using Hb.
  destruct Hb as ((H1 & _) & (H2 & _) & (H3 & _) & (H4 & _)).
  simpl. rewrite H1, H2, H3, H4. reflexivity.
Qed.

Lemma formats_py_run :
  formats_py core (start h) = inr (tt, final h a1 a2 a3 a4 B1 B2 B3 B4).
Proof using Hb.
  pose proof import_run as Hi.
  destruct Hb as ((_ & Ha1) & (_ & Ha2) & (_ & Ha3) & (_ & Ha4)).
  destruct new_addrs_fresh as [Hnd _].
  rewrite !NoDup_cons, !not_elem_of_cons, !elem_of_nil in Hnd.
  destruct Hnd as ((H12 & H13 & H14 & _) & (H23 & H24 & _) & (H34 & _) & _).
  destruct (old_addr_not_new _ _ Ha2) as (H21' & _),
    (old_addr_not_new _ _ Ha3) as (H31' & H32' & _),
    (old_addr_not_new _ _ Ha4) as (H41' & H42' & H43' & _).
  unfold formats_py.
  erewrite bind_run; last exact Hi.
  (* RFParams_PAL_VHS = {**RFParams_PAL} *)
  erewrite bind_run; last by (apply assign_copy_run with (a := a1) (B := B1)).
  simpl heap; simpl globals. fold (rf_pal_addr h).
  (* RFParams_NTSC_VHS = {**RFParams_NTSC} *)
  erewrite bind_run; last first.
  { apply assign_copy_run with (a := a2) (B := B2); [done|].
    simpl. by rewrite lookup_insert_ne. }
  simpl heap; simpl globals. rewrite dom_insert_L. fold (rf_ntsc_addr h).
  (* the overrides of RFParams_PAL_VHS *)
  rewrite (insert_insert_ne _ (rf_ntsc_addr h) (rf_pal_addr h)) by done.
  do 5 (erewrite bind_run; last by apply assign_subscript_top).
  (* the overrides of RFParams_NTSC_VHS *)
  rewrite (insert_insert_ne _ (rf_pal_addr h) (rf_ntsc_addr h)) by done.
  do 4 (erewrite bind_run; last by apply assign_subscript_top).
  erewrite bind_run; last first.
  { apply assign_subscript_top; [apply ntsc_color_under_carrier_value | done]. }
  (* SysParams_PAL_VHS = {**SysParams_PAL} *)
  erewrite bind_run; last first.
  { apply assign_copy_run with (a := a3) (B := B3); [done|].
    simpl. by rewrite !lookup_insert_ne. }
  simpl heap; simpl globals. rewrite !dom_insert_L. fold (sys_pal_addr h).
  (* SysParams_NTSC_VHS = {**SysParams_NTSC} *)
  erewrite bind_run; last first.
  { apply assign_copy_run with (a := a4) (B := B4); [done|].
    simpl. by rewrite !lookup_insert_ne. }
  simpl heap; simpl globals. rewrite !dom_insert_L. fold (sys_ntsc_addr h).
  (* the overrides of SysParams_PAL_VHS *)
  rewrite (insert_insert_ne _ (sys_ntsc_addr h) (sys_pal_addr h)) by done.
  erewrite bind_run; last by apply assign_subscript_top.
  erewrite bind_run; last first.
  { apply assign_subscript_top; [apply pal_hz_ire_value | done]. }
  do 2 (erewrite bind_run; last by apply assign_subscript_top).
  (* the overrides of SysParams_NTSC_VHS *)
  rewrite (insert_insert_ne _ (sys_pal_addr h) (sys_ntsc_addr h)) by done.
  erewrite bind_run; last by apply assign_subscript_top.
  erewrite bind_run; last first.
  { apply assign_subscript_top; [apply ntsc_hz_ire_value | done]. }
  erewrite bind_run; last by apply assign_subscript_top.
  erewrite assign_subscript_top; [|done..].
  reflexivity.
Qed.

(** Objects that were there before the module ran are as they were. *)
Lemma final_preserves a o :
  h !! a = Some o →
  heap (final h a1 a2 a3 a4 B1 B2 B3 B4) !! a = Some o.
Proof using Type.
  intros Ha. destruct (old_addr_not_new _ _ Ha) as (? & ? & ? & ?).
  simpl. by rewrite !lookup_insert_ne.
Qed.

(** Each derived name refers to a dict that holds its baseline with its
    table applied. *)
Lemma final_dicts name base O :
  (name, base, O) ∈ derivations →
  ∃ B, dict_at (State core h) base = Some B ∧
       dict_at (final h a1 a2 a3 a4 B1 B2 B3 B4) name = Some (apply_overrides B O).
Proof using Hb.
  destruct Hb as ((Hc1 & Ha1) & (Hc2 & Ha2) & (Hc3 & Ha3) & (Hc4 & Ha4)).
  destruct new_addrs_fresh as [Hnd _].
  rewrite !NoDup_cons, !not_elem_of_cons, !elem_of_nil in Hnd.
  destruct Hnd as ((H12 & H13 & H14 & _) & (H23 & H24 & _) & (H34 & _) & _).
  unfold derivations. rewrite !elem_of_cons, elem_of_nil.
  intros [E|[E|[E|[E|[]]]]]; injection E as -> -> ->.
  - exists B1. unfold dict_at; simpl. rewrite Hc1; simpl. rewrite Ha1.
    split; [done|]. by insert_lookups.
  - exists B2. unfold dict_at; simpl. rewrite Hc2; simpl. rewrite Ha2.
    split; [done|]. by insert_lookups.
  - exists B3. unfold dict_at; simpl. rewrite Hc3; simpl. rewrite Ha3.
    split; [done|]. by insert_lookups.
  - exists B4. unfold dict_at; simpl. rewrite Hc4; simpl. rewrite Ha4.
    split; [done|]. by insert_lookups.
Qed.
End Module_run.

(** ** The contents of a derived dict *)

Lemma apply_overrides_cons B k v O :
  apply_overrides B ((k, v) :: O) = apply_overrides (<[k := v]> B) O.
Proof. reflexivity. Qed.

(** An entry of the derived dict comes from the table when the table
    has the field, and from the baseline otherwise. *)
Lemma apply_overrides_lookup O : ∀ B f,
  apply_overrides B O !! f =
    match table_get O f with
    | Some v => Some v
    | None => B !! f
    end.
Proof.
  induction O as [|[k v] O IH]; intros B f; [done|].
  rewrite apply_overrides_cons, IH. simpl.
  destruct (table_get O f); [done|].
  rewrite lookup_insert. by destruct (decide (k = f)).
Qed.

Lemma table_get_None O f : table_get O f = None ↔ f ∉ O.*1.
Proof.
  induction O as [|[k v] O IH]; simpl.
  - split; [intros _; apply not_elem_of_nil | done].
  - rewrite not_elem_of_cons, <- IH.
    destruct (table_get O f) as [w|]; [split; [done | by intros [_ ?]]|].
    destruct (decide (k = f)) as [->|Hne].
    + split; [done | by intros [? _]].
    + split; [intros _; split; [congruence | done] | done].
Qed.

Lemma table_get_is_Some O f : is_Some (table_get O f) ↔ f ∈ O.*1.
Proof.
  rewrite <- not_eq_None_Some, table_get_None.
  split; [apply dec_stable | auto].
Qed.

Lemma apply_overrides_dom O : ∀ B,
  dom (apply_overrides B O) = dom B ∪ list_to_set O.*1.
Proof.
  induction O as [|[k v] O IH]; intros B.
  - simpl. by rewrite union_empty_r_L.
  - rewrite apply_overrides_cons, IH, dom_insert_L. simpl.
    by rewrite (comm_L (∪) {[k]} (dom B)), !(assoc_L (∪)).
Qed.

(** With distinct keys the order of the pairs does not matter. *)
Lemma apply_overrides_perm O O' :
  O ≡ₚ O' → NoDup O.*1 → ∀ B, apply_overrides B O = apply_overrides B O'.
Proof.
  induction 1 as [|[k v] O O' HP IH|[k1 v1] [k2 v2] O|O O' O'' HP1 IH1 HP2 IH2];
    intros Hnd B.
  - done.
  - rewrite !apply_overrides_cons. apply IH.
    by apply NoDup_cons in Hnd as [_ ?].
  - rewrite !apply_overrides_cons. f_equal.
    apply insert_insert_ne.
    simpl in Hnd. apply NoDup_cons in Hnd as [Hne _].
    rewrite not_elem_of_cons in Hne. destruct Hne as [Hne _]. congruence.
  - rewrite IH1 by done. apply IH2.
    assert (O.*1 ≡ₚ O'.*1) as <- by (by apply fmap_Permutation). done.
Qed.

(** ** Running the idiom *)

Lemma assign_all_run O : ∀ s a d,
  heap s !! a = Some (ODict d) →
  assign_all (VRef a) O s =
    inr (tt, State (globals s) (<[a := ODict (apply_overrides d O)]> (heap s))).
Proof.
  induction O as [|[k v] O IH]; intros [g hp] a d Ha; simpl in *.
  - by rewrite insert_id.
  - erewrite bind_run; last by (unfold setitem; simpl; rewrite Ha).
    rewrite (IH _ a (<[k := v]> d)) by apply lookup_insert_eq.
    simpl. by rewrite insert_insert_eq.
Qed.

Lemma derive_run s a B O :
  heap s !! a = Some (ODict B) →
  derive (VRef a) O s =
    inr (VRef (fresh (dom (heap s))),
         State (globals s)
               (<[fresh (dom (heap s)) := ODict (apply_overrides B O)]> (heap s))).
Proof.
  intros Ha. unfold derive.
  erewrite bind_run; last by (unfold dict_unpack; rewrite Ha).
  erewrite bind_run; last by (apply assign_all_run, lookup_insert_eq).
  simpl. by rewrite insert_insert_eq.
Qed.

(** Deriving from anything but a dict raises. *)
Lemma derive_not_dict s v O :
  (∀ a B, v = VRef a → heap s !! a ≠ Some (ODict B)) →
  derive v O s = inl TypeError.
Proof.
  intros Hv. unfold derive, mbind, M_bind, dict_unpack.
  destruct v as [n|a]; [done|].
  destruct (heap s !! a) as [[B| |]|] eqn:E; try done.
  by destruct (Hv a B).
Qed.

(** The idiom succeeds on a dict, and the new dict holds the baseline
    with the table applied. *)
Lemma derive_dict s a B O :
  heap s !! a = Some (ODict B) →
  ∃ r s', derive (VRef a) O s = inr (VRef r, s') ∧
          heap s !! r = None ∧
          globals s' = globals s ∧
          heap s' = <[r := ODict (apply_overrides B O)]> (heap s).
Proof.
  intros Ha. eexists _, _. split; [by apply derive_run|].
  split; [apply not_elem_of_dom, is_fresh | done].
Qed.

(** The module succeeds, and each derived name holds its baseline with
    its table applied. *)
Lemma module_dicts core h a1 a2 a3 a4 B1 B2 B3 B4 :
  baselines core h a1 a2 a3 a4 B1 B2 B3 B4 →
  ∃ s', formats_py core (start h) = inr (tt, s') ∧
        (∀ a o, h !! a = Some o → heap s' !! a = Some o) ∧
        ∀ name base O, (name, base, O) ∈ derivations →
          ∃ B, dict_at (State core h) base = Some B ∧
               dict_at s' name = Some (apply_overrides B O).
Proof.
  intros Hb. exists (final h a1 a2 a3 a4 B1 B2 B3 B4).
  split; [by apply formats_py_run|]. split.
  - apply final_preserves.
  - intros name base O. by apply final_dicts.
Qed.

(** Assigning to an entry of a dict changes that dict and no other
    object. *)
Lemma setitem_run s a d k x :
  heap s !! a = Some (ODict d) →
  setitem (VRef a) k x s =
    inr (tt, State (globals s) (<[a := ODict (<[k := x]> d)]> (heap s))).
Proof. intros Ha. unfold setitem. by rewrite Ha. Qed.

Lemma getitem_run s a d k x :
  heap s !! a = Some (ODict d) → d !! k = Some x →
  getitem (VRef a) k s = inr (x, s).
Proof. intros Ha Hk. unfold getitem. by rewrite Ha, Hk. Qed.

Lemma list_append_run s l xs x :
  heap s !! l = Some (OList xs) →
  list_append (VRef l) x s =
    inr (tt, State (globals s) (<[l := OList (xs ++ [x])]> (heap s))).
Proof. intros Hl. unfold list_append. by rewrite Hl. Qed.

(** The module does what four runs of the idiom do. *)
Lemma derive_named_run dst src O s a B :
  globals s !! src = Some (VRef a) →
  heap s !! a = Some (ODict B) →
  derive_named dst src O s =
    inr (tt, State (<[dst := VRef (fresh (dom (heap s)))]> (globals s))
                   (<[fresh (dom (heap s)) := ODict (apply_overrides B O)]> (heap s))).
Proof.
  intros Hg Ha. unfold derive_named.
  erewrite bind_run; last by (unfold load_name; rewrite Hg).
  erewrite bind_run; last by apply derive_run.
  reflexivity.
Qed.

Lemma formats_py_is_four_derivations core h a1 a2 a3 a4 B1 B2 B3 B4 :
  baselines core h a1 a2 a3 a4 B1 B2 B3 B4 →
  formats_py core (start h) = formats_py_derived core (start h).
Proof.
  intros Hb. rewrite (formats_py_run _ _ _ _ _ _ _ _ _ _ Hb).
  pose proof (import_run _ _ _ _ _ _ _ _ _ _ Hb) as Hi.
  destruct Hb as ((_ & Ha1) & (_ & Ha2) & (_ & Ha3) & (_ & Ha4)).
  destruct (new_addrs_fresh h) as [Hnd _].
  rewrite !NoDup_cons, !not_elem_of_cons, !elem_of_nil in Hnd.
  destruct Hnd as ((H12 & H13 & H14 & _) & (H23 & H24 & _) & (H34 & _) & _).
  destruct (old_addr_not_new h _ _ Ha2) as (H21' & _),
    (old_addr_not_new h _ _ Ha3) as (H31' & H32' & _),
    (old_addr_not_new h _ _ Ha4) as (H41' & H42' & H43' & _).
  unfold formats_py_derived.
  erewrite bind_run; last exact Hi.
  erewrite bind_run; last by (apply derive_named_run with (a := a1) (B := B1)).
  simpl heap; simpl globals. fold (rf_pal_addr h).
  erewrite bind_run; last first.
  { apply derive_named_run with (a := a2) (B := B2); [done|].
    simpl. by rewrite lookup_insert_ne. }
  simpl heap; simpl globals. rewrite dom_insert_L. fold (rf_ntsc_addr h).
  erewrite bind_run; last first.
  { apply derive_named_run with (a := a3) (B := B3); [done|].
    simpl. by rewrite !lookup_insert_ne. }
  simpl heap; simpl globals. rewrite !dom_insert_L. fold (sys_pal_addr h).
  erewrite derive_named_run with (a := a4) (B := B4); [|done|]; last first.
  { simpl. by rewrite !lookup_insert_ne. }
  simpl heap; simpl globals. rewrite !dom_insert_L. fold (sys_ntsc_addr h).
  reflexivity.
Qed.

(** The tables of the module name each field once. *)
Lemma derivations_NoDup name base O :
  (name, base, O) ∈ derivations → NoDup (O.*1).
Proof.
  unfold derivations. rewrite !elem_of_cons, elem_of_nil.
  intros [E|[E|[E|[E|[]]]]]; injection E as -> -> ->;
    apply (bool_decide_unpack _); vm_compute; exact I.
Qed.

(** The sample heap is an input of the module. *)
Lemma sample_baselines :
  baselines sample_core sample_heap 1%positive 2%positive 3%positive 4%positive
    sample_rf_pal sample_rf_ntsc sample_sys_pal sample_sys_ntsc.
Proof. repeat split; vm_compute; reflexivity. Defined.

(** ** The claims *)

(** C1. Override precedence: a field the table gives a value has that
    value in the derived dict, whatever the baseline held. This holds for
    the idiom on every dict and table, and for the four dicts of the
    module with their tables. *)
Theorem override_precedence
    (core : gmap string value) (h : gmap addr object) (a1 a2 a3 a4 : addr)
    (B1 B2 B3 B4 : gmap string value)
    (s : state) (a : addr) (B : gmap string value)
    (O : table) (f : string) (v : value) :
  baselines core h a1 a2 a3 a4 B1 B2 B3 B4 →
  heap s !! a = Some (ODict B) →
  table_get O f = Some v →
  (∃ d s' D, derive (VRef a) O s = inr (d, s') ∧
             dict_of s' d = Some D ∧ D !! f = Some v) ∧
  (∃ s', formats_py core (start h) = inr (tt, s') ∧
         ∀ name base O', (name, base, O') ∈ derivations →
           ∃ D, dict_at s' name = Some D ∧
                ∀ f' v', table_get O' f' = Some v' → D !! f' = Some v').
Proof.
  intros Hb Ha Hf. split.
  - destruct (derive_dict s a B O Ha) as (r & s' & Hrun & _ & _ & Hh).
    exists (VRef r), s', (apply_overrides B O). split; [done|]. split.
    + simpl. by rewrite Hh, lookup_insert_eq.
    + by rewrite apply_overrides_lookup, Hf.
  - destruct (module_dicts _ _ _ _ _ _ _ _ _ _ Hb) as (s' & Hrun & _ & Hd).
    exists s'. split; [done|]. intros name base O' Hin.
    destruct (Hd _ _ _ Hin) as (B' & _ & HD).
    exists (apply_overrides B' O'). split; [done|].
    intros f' v' Hf'. by rewrite apply_overrides_lookup, Hf'.
Qed.

Lemma override_precedence_witness :
  baselines sample_core sample_heap 1%positive 2%positive 3%positive 4%positive
    sample_rf_pal sample_rf_ntsc sample_sys_pal sample_sys_ntsc ∧
  heap (start sample_heap) !! 1%positive = Some (ODict sample_rf_pal) ∧
  table_get sample_table "video_bpf_low" = Some (VNum (Int 3550000)) ∧
  (∃ d s' D, derive (VRef 1%positive) sample_table (start sample_heap) = inr (d, s') ∧
             dict_of s' d = Some D ∧
             D !! "video_bpf_low" = Some (VNum (Int 3550000))) ∧
  (∃ s', formats_py sample_core (start sample_heap) = inr (tt, s') ∧
         ∀ name base O', (name, base, O') ∈ derivations →
           ∃ D, dict_at s' name = Some D ∧
                ∀ f' v', table_get O' f' = Some v' → D !! f' = Some v').
Proof.
  split; [exact sample_baselines|].
  split; [vm_compute; reflexivity|].
  split; [vm_compute; reflexivity|].
  apply (override_precedence sample_core sample_heap 1%positive 2%positive 3%positive 4%positive
           sample_rf_pal sample_rf_ntsc sample_sys_pal sample_sys_ntsc
           (start sample_heap) 1%positive sample_rf_pal sample_table
           "video_bpf_low" (VNum (Int 3550000))).
  - exact sample_baselines.
  - vm_compute; reflexivity.
  - vm_compute; reflexivity.
Defined.

(** C2. Inheritance: a field the table does not mention has in the
    derived dict what it has in the baseline. This holds for the idiom on
    every dict and table, and for the four dicts of the module. *)
Theorem unlisted_fields_inherited
    (core : gmap string value) (h : gmap addr object) (a1 a2 a3 a4 : addr)
    (B1 B2 B3 B4 : gmap string value)
    (s : state) (a : addr) (B : gmap string value) (O : table) (f : string) :
  baselines core h a1 a2 a3 a4 B1 B2 B3 B4 →
  heap s !! a = Some (ODict B) →
  f ∉ O.*1 →
  (∃ d s' D, derive (VRef a) O s = inr (d, s') ∧
             dict_of s' d = Some D ∧ D !! f = B !! f) ∧
  (∃ s', formats_py core (start h) = inr (tt, s') ∧
         ∀ name base O', (name, base, O') ∈ derivations →
           ∃ B' D, dict_at (State core h) base = Some B' ∧
                   dict_at s' name = Some D ∧
                   ∀ f', f' ∉ O'.*1 → D !! f' = B' !! f').
Proof.
  intros Hb Ha Hf. split.
  - destruct (derive_dict s a B O Ha) as (r & s' & Hrun & _ & _ & Hh).
    exists (VRef r), s', (apply_overrides B O). split; [done|]. split.
    + simpl. by rewrite Hh, lookup_insert_eq.
    + apply table_get_None in Hf. by rewrite apply_overrides_lookup, Hf.
  - destruct (module_dicts _ _ _ _ _ _ _ _ _ _ Hb) as (s' & Hrun & _ & Hd).
    exists s'. split; [done|]. intros name base O' Hin.
    destruct (Hd _ _ _ Hin) as (B' & HB & HD).
    exists B', (apply_overrides B' O'). do 2 (split; [done|]).
    intros f' Hf'. apply table_get_None in Hf'.
    by rewrite apply_overrides_lookup, Hf'.
Qed.

Lemma unlisted_fields_inherited_witness :
  baselines sample_core sample_heap 1%positive 2%positive 3%positive 4%positive
    sample_rf_pal sample_rf_ntsc sample_sys_pal sample_sys_ntsc ∧
  heap (start sample_heap) !! 1%positive = Some (ODict sample_rf_pal) ∧
  ("foo" ∉ sample_table.*1) ∧
  (∃ d s' D, derive (VRef 1%positive) sample_table (start sample_heap) = inr (d, s') ∧
             dict_of s' d = Some D ∧ D !! "foo" = sample_rf_pal !! "foo") ∧
  (∃ s', formats_py sample_core (start sample_heap) = inr (tt, s') ∧
         ∀ name base O', (name, base, O') ∈ derivations →
           ∃ B' D, dict_at (State sample_core sample_heap) base = Some B' ∧
                   dict_at s' name = Some D ∧
                   ∀ f', f' ∉ O'.*1 → D !! f' = B' !! f').
Proof.
  assert (Hf : "foo" ∉ sample_table.*1).
  { apply table_get_None. vm_compute; reflexivity. }
  split; [exact sample_baselines|].
  split; [vm_compute; reflexivity|].
  split; [exact Hf|].
  apply (unlisted_fields_inherited sample_core sample_heap 1%positive 2%positive 3%positive 4%positive
           sample_rf_pal sample_rf_ntsc sample_sys_pal sample_sys_ntsc
           (start sample_heap) 1%positive sample_rf_pal sample_table "foo").
  - exact sample_baselines.
  - vm_compute; reflexivity.
  - exact Hf.
Defined.

(** C3, as the code has it. The 625-line RF dict gets video_bpf_low =
    3550000, video_bpf_high = 5200000, video_bpf_order = 1, video_lpf_freq
    = 3600000 and color_under_carrier = 625 * 25 * 40 + 1953 = 626953, and
    every other field of the baseline is carried over. *)
Theorem standard_A_rf_scenario
    (core : gmap string value) (h : gmap addr object) (a1 a2 a3 a4 : addr)
    (B1 B2 B3 B4 : gmap string value) :
  baselines core h a1 a2 a3 a4 B1 B2 B3 B4 →
  ∃ s' D, formats_py core (start h) = inr (tt, s') ∧
          dict_at s' "RFParams_PAL_VHS" = Some D ∧
          D !! "video_bpf_low" = Some (VNum (Int 3550000)) ∧
          D !! "video_bpf_high" = Some (VNum (Int 5200000)) ∧
          D !! "video_bpf_order" = Some (VNum (Int 1)) ∧
          D !! "video_lpf_freq" = Some (VNum (Int 3600000)) ∧
          D !! "color_under_carrier" = Some (VNum (Int 626953)) ∧
          ∀ f : string, f ∉ ["video_bpf_low"; "video_bpf_high"; "video_bpf_order";
                           "video_lpf_freq"; "color_under_carrier"] → D !! f = B1 !! f.
Proof.
  intros Hb.
  destruct (module_dicts _ _ _ _ _ _ _ _ _ _ Hb) as (s' & Hrun & _ & Hd).
  destruct (Hd "RFParams_PAL_VHS" "RFParams_PAL" rf_pal_overrides)
    as (B & HB & HD); [apply list_elem_of_here|].
  assert (B = B1) as ->.
  { destruct Hb as ((Hc & Ha) & _). unfold dict_at in HB; simpl in HB.
    rewrite Hc in HB; simpl in HB. rewrite Ha in HB. congruence. }
  exists s', (apply_overrides B1 rf_pal_overrides).
  do 2 (split; [done|]).
  do 5 (split; [by rewrite apply_overrides_lookup|]).
  intros f Hf. rewrite apply_overrides_lookup.
  replace (table_get rf_pal_overrides f) with (@None value); [done|].
  symmetry. by apply table_get_None.
Qed.

Lemma standard_A_rf_scenario_witness :
  baselines sample_core sample_heap 1%positive 2%positive 3%positive 4%positive
    sample_rf_pal sample_rf_ntsc sample_sys_pal sample_sys_ntsc ∧
  ∃ s' D, formats_py sample_core (start sample_heap) = inr (tt, s') ∧
          dict_at s' "RFParams_PAL_VHS" = Some D ∧
          D !! "video_bpf_low" = Some (VNum (Int 3550000)) ∧
          D !! "video_bpf_high" = Some (VNum (Int 5200000)) ∧
          D !! "video_bpf_order" = Some (VNum (Int 1)) ∧
          D !! "video_lpf_freq" = Some (VNum (Int 3600000)) ∧
          D !! "color_under_carrier" = Some (VNum (Int 626953)) ∧
          ∀ f : string, f ∉ ["video_bpf_low"; "video_bpf_high"; "video_bpf_order";
                           "video_lpf_freq"; "color_under_carrier"] → D !! f = sample_rf_pal !! f.
Proof.
  split; [exact sample_baselines|].
  apply (standard_A_rf_scenario sample_core sample_heap 1%positive 2%positive 3%positive 4%positive
    sample_rf_pal sample_rf_ntsc sample_sys_pal sample_sys_ntsc).
  exact sample_baselines.
Defined.

(** C3 as the spec words it fails on the sample heap: the carrier the
    module stores is 626953, not 1954453, and video_lpf_freq, which is not
    among the four fields the scenario names, goes from 4800000 to
    3600000. *)
Lemma standard_A_rf_scenario_counterexample :
  (∃ s' D, formats_py sample_core (start sample_heap) = inr (tt, s') ∧
           dict_at s' "RFParams_PAL_VHS" = Some D ∧
           D !! "color_under_carrier" = Some (VNum (Int 626953)) ∧
           D !! "video_lpf_freq" = Some (VNum (Int 3600000)) ∧
           sample_rf_pal !! "video_lpf_freq" = Some (VNum (Int 4800000)) ∧
           D !! "foo" = Some (VNum (Int 42))) ∧
  ¬ (∀ core h a1 a2 a3 a4 B1 B2 B3 B4,
       baselines core h a1 a2 a3 a4 B1 B2 B3 B4 →
       ∃ s' D, formats_py core (start h) = inr (tt, s') ∧
          dict_at s' "RFParams_PAL_VHS" = Some D ∧
          D !! "video_bpf_low" = Some (VNum (Int 3550000)) ∧
          D !! "video_bpf_high" = Some (VNum (Int 5200000)) ∧
          D !! "video_bpf_order" = Some (VNum (Int 1)) ∧
          D !! "color_under_carrier" = Some (VNum (Int 1954453)) ∧
          ∀ f : string, f ∉ ["video_bpf_low"; "video_bpf_high"; "video_bpf_order";
                           "color_under_carrier"] → D !! f = B1 !! f).
Proof.
  pose proof (formats_py_run _ _ _ _ _ _ _ _ _ _ sample_baselines) as Hrun.
  assert (HD : dict_at (final sample_heap 1%positive 2%positive 3%positive
                          4%positive sample_rf_pal sample_rf_ntsc
                          sample_sys_pal sample_sys_ntsc) "RFParams_PAL_VHS"
               = Some (apply_overrides sample_rf_pal rf_pal_overrides))
    by (vm_compute; reflexivity).
  split.
  - eexists _, _. split; [exact Hrun|]. split; [exact HD|].
    repeat split; vm_compute; reflexivity.
  - intros H.
    destruct (H _ _ _ _ _ _ _ _ _ _ sample_baselines)
      as (s' & D & Hrun' & HD' & _ & _ & _ & Hc & _).
    rewrite Hrun in Hrun'. injection Hrun' as <-.
    rewrite HD in HD'. injection HD' as <-.
    vm_compute in Hc. discriminate Hc.
Qed.

(** C4. The carrier values are those of the field table: the 625-line RF
    dict holds the integer ((625 * 25) * 40) + 1953 = 626953, and the
    525-line RF dict holds the double that (525 * (30 / 1.001)) * 40
    evaluates to in binary64 arithmetic, 5406252540419581 * 2^-33, with no
    further rounding. *)
Theorem color_under_carrier_values
    (core : gmap string value) (h : gmap addr object) (a1 a2 a3 a4 : addr)
    (B1 B2 B3 B4 : gmap string value) :
  baselines core h a1 a2 a3 a4 B1 B2 B3 B4 →
  ∃ s' Dp Dn x,
    formats_py core (start h) = inr (tt, s') ∧
    dict_at s' "RFParams_PAL_VHS" = Some Dp ∧
    dict_at s' "RFParams_NTSC_VHS" = Some Dn ∧
    Dp !! "color_under_carrier" = Some (VNum (Int (((625 * 25) * 40) + 1953))) ∧
    ((625 * 25) * 40) + 1953 = 626953 ∧
    Dn !! "color_under_carrier" = Some (VNum (Float x)) ∧
    ntsc_color_under_carrier = inr (Float x) ∧
    x = SpecFloat.SFmul Num.prec Num.emax
          (SpecFloat.SFmul Num.prec Num.emax (Num.nearest 525)
             (SpecFloat.SFdiv Num.prec Num.emax (Num.nearest 30)
                (Num.decimal 1001 3)))
          (Num.nearest 40) ∧
    x = SpecFloat.S754_finite false 5406252540419581 (-33).
Proof.
  intros Hb.
  destruct (module_dicts _ _ _ _ _ _ _ _ _ _ Hb) as (s' & Hrun & _ & Hd).
  destruct (Hd "RFParams_PAL_VHS" "RFParams_PAL" rf_pal_overrides)
    as (Bp & _ & HDp); [unfold derivations; rewrite !elem_of_cons; auto|].
  destruct (Hd "RFParams_NTSC_VHS" "RFParams_NTSC" rf_ntsc_overrides)
    as (Bn & _ & HDn); [unfold derivations; rewrite !elem_of_cons; auto|].
  exists s', (apply_overrides Bp rf_pal_overrides),
    (apply_overrides Bn rf_ntsc_overrides),
    (SpecFloat.S754_finite false 5406252540419581 (-33)).
  do 3 (split; [done|]).
  split; [by rewrite apply_overrides_lookup|].
  split; [done|].
  split; [by rewrite apply_overrides_lookup|].
  split; [apply ntsc_color_under_carrier_value|].
  split; [vm_compute; reflexivity | done].
Qed.

Lemma color_under_carrier_values_witness :
  baselines sample_core sample_heap 1%positive 2%positive 3%positive 4%positive
    sample_rf_pal sample_rf_ntsc sample_sys_pal sample_sys_ntsc ∧
  ∃ s' Dp Dn x,
    formats_py sample_core (start sample_heap) = inr (tt, s') ∧
    dict_at s' "RFParams_PAL_VHS" = Some Dp ∧
    dict_at s' "RFParams_NTSC_VHS" = Some Dn ∧
    Dp !! "color_under_carrier" = Some (VNum (Int (((625 * 25) * 40) + 1953))) ∧
    ((625 * 25) * 40) + 1953 = 626953 ∧
    Dn !! "color_under_carrier" = Some (VNum (Float x)) ∧
    ntsc_color_under_carrier = inr (Float x) ∧
    x = SpecFloat.SFmul Num.prec Num.emax
          (SpecFloat.SFmul Num.prec Num.emax (Num.nearest 525)
             (SpecFloat.SFdiv Num.prec Num.emax (Num.nearest 30)
                (Num.decimal 1001 3)))
          (Num.nearest 40) ∧
    x = SpecFloat.S754_finite false 5406252540419581 (-33).
Proof.
  split; [exact sample_baselines|].
  apply (color_under_carrier_values sample_core sample_heap 1%positive 2%positive 3%positive 4%positive
    sample_rf_pal sample_rf_ntsc sample_sys_pal sample_sys_ntsc).
  exact sample_baselines.
Defined.

(** C5. The 525-line system dict gets ire0 = 3685000, hz_ire = 715000 /
    100.0 = 7150.0, max_ire = 100 and burst_abs_ref = 300. *)
Theorem standard_B_system_scenario
    (core : gmap string value) (h : gmap addr object) (a1 a2 a3 a4 : addr)
    (B1 B2 B3 B4 : gmap string value) :
  baselines core h a1 a2 a3 a4 B1 B2 B3 B4 →
  ∃ s' D,
    formats_py core (start h) = inr (tt, s') ∧
    dict_at s' "SysParams_NTSC_VHS" = Some D ∧
    D !! "ire0" = Some (VNum (Int 3685000)) ∧
    D !! "hz_ire" = Some (VNum (whole 7150)) ∧
    ntsc_hz_ire = inr (whole 7150) ∧
    whole 7150 = Float (SpecFloat.S754_finite false (7150 * 2 ^ 40) (-40)) ∧
    D !! "max_ire" = Some (VNum (Int 100)) ∧
    D !! "burst_abs_ref" = Some (VNum (Int 300)).
Proof.
  intros Hb.
  destruct (module_dicts _ _ _ _ _ _ _ _ _ _ Hb) as (s' & Hrun & _ & Hd).
  destruct (Hd "SysParams_NTSC_VHS" "SysParams_NTSC" sys_ntsc_overrides)
    as (B & _ & HD); [unfold derivations; rewrite !elem_of_cons; auto|].
  exists s', (apply_overrides B sys_ntsc_overrides).
  do 2 (split; [done|]).
  do 2 (split; [by rewrite apply_overrides_lookup|]).
  split; [apply ntsc_hz_ire_value|].
  split; [apply whole_7150|].
  split; by rewrite apply_overrides_lookup.
Qed.

Lemma standard_B_system_scenario_witness :
  baselines sample_core sample_heap 1%positive 2%positive 3%positive 4%positive
    sample_rf_pal sample_rf_ntsc sample_sys_pal sample_sys_ntsc ∧
  ∃ s' D,
    formats_py sample_core (start sample_heap) = inr (tt, s') ∧
    dict_at s' "SysParams_NTSC_VHS" = Some D ∧
    D !! "ire0" = Some (VNum (Int 3685000)) ∧
    D !! "hz_ire" = Some (VNum (whole 7150)) ∧
    ntsc_hz_ire = inr (whole 7150) ∧
    whole 7150 = Float (SpecFloat.S754_finite false (7150 * 2 ^ 40) (-40)) ∧
    D !! "max_ire" = Some (VNum (Int 100)) ∧
    D !! "burst_abs_ref" = Some (VNum (Int 300)).
Proof.
  split; [exact sample_baselines|].
  apply (standard_B_system_scenario sample_core sample_heap 1%positive 2%positive 3%positive 4%positive
    sample_rf_pal sample_rf_ntsc sample_sys_pal sample_sys_ntsc).
  exact sample_baselines.
Defined.

(** C6. Derivation is non-destructive and the result is independent. The
    idiom leaves the baseline and every other object as they were and
    returns a dict at an address that was not in use; assigning to a field
    of the baseline afterwards does not change the derived dict, and
    assigning to a field of the derived dict changes no other object. The
    module leaves every object it found as it was, and its four dicts are
    four new, distinct objects. *)
Theorem derivation_is_non_destructive
    (core : gmap string value) (h : gmap addr object) (a1 a2 a3 a4 : addr)
    (B1 B2 B3 B4 : gmap string value)
    (s : state) (a : addr) (B : gmap string value) (O : table) :
  baselines core h a1 a2 a3 a4 B1 B2 B3 B4 →
  heap s !! a = Some (ODict B) →
  (∃ r s', derive (VRef a) O s = inr (VRef r, s') ∧
            heap s !! r = None ∧
            globals s' = globals s ∧
            (∀ a' o, heap s !! a' = Some o → heap s' !! a' = Some o) ∧
            (∀ k x, ∃ s'', setitem (VRef a) k x s' = inr (tt, s'') ∧
                           dict_of s'' (VRef a) = Some (<[k := x]> B) ∧
                           heap s'' !! r = heap s' !! r) ∧
            (∀ k x, ∃ s'' D, setitem (VRef r) k x s' = inr (tt, s'') ∧
                             dict_of s' (VRef r) = Some D ∧
                             dict_of s'' (VRef r) = Some (<[k := x]> D) ∧
                             ∀ a', a' ≠ r → heap s'' !! a' = heap s' !! a')) ∧
  (∃ s' r1 r2 r3 r4,
      formats_py core (start h) = inr (tt, s') ∧
      (∀ a' o, h !! a' = Some o → heap s' !! a' = Some o) ∧
      globals s' !! "RFParams_PAL_VHS" = Some (VRef r1) ∧
      globals s' !! "RFParams_NTSC_VHS" = Some (VRef r2) ∧
      globals s' !! "SysParams_PAL_VHS" = Some (VRef r3) ∧
      globals s' !! "SysParams_NTSC_VHS" = Some (VRef r4) ∧
      NoDup [r1; r2; r3; r4] ∧
      ∀ r, r ∈ [r1; r2; r3; r4] → h !! r = None).
Proof.
  intros Hb Ha. split.
  - destruct (derive_dict s a B O Ha) as (r & s' & Hrun & Hr & Hg & Hh).
    assert (Hne : a ≠ r) by congruence.
    assert (Ha' : heap s' !! a = Some (ODict B)) by (by rewrite Hh, lookup_insert_ne).
    exists r, s'. do 3 (split; [done|]). split; [|split].
    + intros a' o Ho. rewrite Hh, lookup_insert_ne; [done | congruence].
    + intros k x. eexists. split; [by apply setitem_run|].
      simpl. by rewrite lookup_insert_eq, lookup_insert_ne.
    + intros k x. eexists _, (apply_overrides B O).
      split; [apply setitem_run; by rewrite Hh, lookup_insert_eq|].
      simpl. rewrite Hh, !lookup_insert_eq. do 2 (split; [done|]).
      intros a' Hne'. by rewrite lookup_insert_ne.
  - exists (final h a1 a2 a3 a4 B1 B2 B3 B4), (rf_pal_addr h), (rf_ntsc_addr h),
      (sys_pal_addr h), (sys_ntsc_addr h).
    split; [by apply formats_py_run|].
    split; [apply final_preserves|].
    do 4 (split; [done|]). apply new_addrs_fresh.
Qed.

Lemma derivation_is_non_destructive_witness :
  baselines sample_core sample_heap 1%positive 2%positive 3%positive 4%positive
    sample_rf_pal sample_rf_ntsc sample_sys_pal sample_sys_ntsc ∧
  heap (start sample_heap) !! 1%positive = Some (ODict sample_rf_pal) ∧
  (∃ r s', derive (VRef 1%positive) sample_table (start sample_heap) = inr (VRef r, s') ∧
            heap (start sample_heap) !! r = None ∧
            globals s' = globals (start sample_heap) ∧
            (∀ a' o, heap (start sample_heap) !! a' = Some o → heap s' !! a' = Some o) ∧
            (∀ k x, ∃ s'', setitem (VRef 1%positive) k x s' = inr (tt, s'') ∧
                           dict_of s'' (VRef 1%positive) = Some (<[k := x]> sample_rf_pal) ∧
                           heap s'' !! r = heap s' !! r) ∧
            (∀ k x, ∃ s'' D, setitem (VRef r) k x s' = inr (tt, s'') ∧
                             dict_of s' (VRef r) = Some D ∧
                             dict_of s'' (VRef r) = Some (<[k := x]> D) ∧
                             ∀ a', a' ≠ r → heap s'' !! a' = heap s' !! a')) ∧
  (∃ s' r1 r2 r3 r4,
      formats_py sample_core (start sample_heap) = inr (tt, s') ∧
      (∀ a' o, sample_heap !! a' = Some o → heap s' !! a' = Some o) ∧
      globals s' !! "RFParams_PAL_VHS" = Some (VRef r1) ∧
      globals s' !! "RFParams_NTSC_VHS" = Some (VRef r2) ∧
      globals s' !! "SysParams_PAL_VHS" = Some (VRef r3) ∧
      globals s' !! "SysParams_NTSC_VHS" = Some (VRef r4) ∧
      NoDup [r1; r2; r3; r4] ∧
      ∀ r, r ∈ [r1; r2; r3; r4] → sample_heap !! r = None).
Proof.
  split; [exact sample_baselines|].
  split; [vm_compute; reflexivity|].
  apply (derivation_is_non_destructive sample_core sample_heap 1%positive 2%positive 3%positive 4%positive
    sample_rf_pal sample_rf_ntsc sample_sys_pal sample_sys_ntsc
    (start sample_heap) 1%positive sample_rf_pal sample_table).
  - exact sample_baselines.
  - vm_compute; reflexivity.
Defined.

(** C7. The fields of a derived dict are the fields of its baseline
    together with the fields of the table: none is dropped and none comes
    from elsewhere. *)
Theorem derived_domain
    (core : gmap string value) (h : gmap addr object) (a1 a2 a3 a4 : addr)
    (B1 B2 B3 B4 : gmap string value)
    (s : state) (a : addr) (B : gmap string value) (O : table) :
  baselines core h a1 a2 a3 a4 B1 B2 B3 B4 →
  heap s !! a = Some (ODict B) →
  (∃ d s' D, derive (VRef a) O s = inr (d, s') ∧
             dict_of s' d = Some D ∧
             dom D = dom B ∪ list_to_set (O.*1)) ∧
  (∃ s', formats_py core (start h) = inr (tt, s') ∧
         ∀ name base O', (name, base, O') ∈ derivations →
           ∃ B' D, dict_at (State core h) base = Some B' ∧
                   dict_at s' name = Some D ∧
                   dom D = dom B' ∪ list_to_set (O'.*1)).
Proof.
  intros Hb Ha. split.
  - destruct (derive_dict s a B O Ha) as (r & s' & Hrun & _ & _ & Hh).
    exists (VRef r), s', (apply_overrides B O). split; [done|]. split.
    + simpl. by rewrite Hh, lookup_insert_eq.
    + apply apply_overrides_dom.
  - destruct (module_dicts _ _ _ _ _ _ _ _ _ _ Hb) as (s' & Hrun & _ & Hd).
    exists s'. split; [done|]. intros name base O' Hin.
    destruct (Hd _ _ _ Hin) as (B' & HB & HD).
    exists B', (apply_overrides B' O'). do 2 (split; [done|]).
    apply apply_overrides_dom.
Qed.

Lemma derived_domain_witness :
  baselines sample_core sample_heap 1%positive 2%positive 3%positive 4%positive
    sample_rf_pal sample_rf_ntsc sample_sys_pal sample_sys_ntsc ∧
  heap (start sample_heap) !! 1%positive = Some (ODict sample_rf_pal) ∧
  (∃ d s' D, derive (VRef 1%positive) sample_table (start sample_heap) = inr (d, s') ∧
             dict_of s' d = Some D ∧
             dom D = dom sample_rf_pal ∪ list_to_set (sample_table.*1)) ∧
  (∃ s', formats_py sample_core (start sample_heap) = inr (tt, s') ∧
         ∀ name base O', (name, base, O') ∈ derivations →
           ∃ B' D, dict_at (State sample_core sample_heap) base = Some B' ∧
                   dict_at s' name = Some D ∧
                   dom D = dom B' ∪ list_to_set (O'.*1)).
Proof.
  split; [exact sample_baselines|].
  split; [vm_compute; reflexivity|].
  apply (derived_domain sample_core sample_heap 1%positive 2%positive 3%positive 4%positive
    sample_rf_pal sample_rf_ntsc sample_sys_pal sample_sys_ntsc
    (start sample_heap) 1%positive sample_rf_pal sample_table).
  - exact sample_baselines.
  - vm_compute; reflexivity.
Defined.

(** C8. Order independence: when the keys of a table are pairwise
    distinct, the idiom gives the same result for every order of its pairs.
    The four tables of the module have distinct keys, so this holds for
    every reordering of the module's assignments to one dict. *)
Theorem override_order_independence
    (s : state) (a : addr) (B : gmap string value) (O O' : table) :
  heap s !! a = Some (ODict B) →
  NoDup (O.*1) →
  O ≡ₚ O' →
  (derive (VRef a) O' s = derive (VRef a) O s ∧
   ∃ d s', derive (VRef a) O s = inr (d, s')) ∧
  (∀ name base O1 O2 (s1 : state) (b : addr) (B' : gmap string value),
     (name, base, O1) ∈ derivations → O1 ≡ₚ O2 →
     heap s1 !! b = Some (ODict B') →
     derive (VRef b) O2 s1 = derive (VRef b) O1 s1).
Proof.
  intros Ha Hnd HP. split; [split|].
  - rewrite !(derive_run _ _ _ _ Ha).
    by rewrite (apply_overrides_perm O O' HP Hnd).
  - rewrite (derive_run _ _ _ _ Ha). by eexists _, _.
  - intros name base O1 O2 s1 b B' Hin HP' Hb.
    rewrite !(derive_run _ _ _ _ Hb).
    rewrite (apply_overrides_perm O1 O2 HP'); [done|].
    by eapply derivations_NoDup.
Qed.

Lemma override_order_independence_witness :
  heap (start sample_heap) !! 1%positive = Some (ODict sample_rf_pal) ∧
  NoDup (sample_table.*1) ∧
  sample_table ≡ₚ sample_table_reordered ∧
  (derive (VRef 1%positive) sample_table_reordered (start sample_heap) = derive (VRef 1%positive) sample_table (start sample_heap) ∧
   ∃ d s', derive (VRef 1%positive) sample_table (start sample_heap) = inr (d, s')) ∧
  (∀ name base O1 O2 (s1 : state) (b : addr) (B' : gmap string value),
     (name, base, O1) ∈ derivations → O1 ≡ₚ O2 →
     heap s1 !! b = Some (ODict B') →
     derive (VRef b) O2 s1 = derive (VRef b) O1 s1).
Proof.
  assert (Hnd : NoDup (sample_table.*1)).
  { apply (bool_decide_unpack _). vm_compute. exact I. }
  assert (HP : sample_table ≡ₚ sample_table_reordered).
  { unfold sample_table, sample_table_reordered.
    eapply perm_trans; [apply perm_skip, perm_swap | apply perm_swap]. }
  split; [vm_compute; reflexivity|].
  split; [exact Hnd|]. split; [exact HP|].
  apply (override_order_independence (start sample_heap) 1%positive
           sample_rf_pal sample_table sample_table_reordered).
  - vm_compute; reflexivity.
  - exact Hnd.
  - exact HP.
Defined.

(** C9. The copy is shallow. A field that holds a reference and is not
    overridden holds the same reference in the derived dict: both dicts
    lead to one object. Appending to a list reached through the baseline
    is seen through the derived dict. In the module, every field that is
    not overridden and refers to an object refers to that same object in
    the derived dict. *)
Theorem copy_is_shallow
    (core : gmap string value) (h : gmap addr object) (a1 a2 a3 a4 : addr)
    (B1 B2 B3 B4 : gmap string value)
    (s : state) (a : addr) (B : gmap string value) (O : table)
    (f : string) (l : addr) (xs : list value) :
  baselines core h a1 a2 a3 a4 B1 B2 B3 B4 →
  heap s !! a = Some (ODict B) →
  B !! f = Some (VRef l) →
  f ∉ O.*1 →
  heap s !! l = Some (OList xs) →
  (∃ r s', derive (VRef a) O s = inr (VRef r, s') ∧
            r ≠ a ∧
            getitem (VRef a) f s' = inr (VRef l, s') ∧
            getitem (VRef r) f s' = inr (VRef l, s') ∧
            heap s' !! l = Some (OList xs) ∧
            ∀ x, ∃ s'',
              (n ← getitem (VRef a) f; list_append n x) s' = inr (tt, s'') ∧
              getitem (VRef r) f s'' = inr (VRef l, s'') ∧
              heap s'' !! l = Some (OList (xs ++ [x]))) ∧
  (∃ s', formats_py core (start h) = inr (tt, s') ∧
         ∀ name base O', (name, base, O') ∈ derivations →
           ∃ B' D, dict_at (State core h) base = Some B' ∧
                   dict_at s' name = Some D ∧
                   ∀ f' l' o, f' ∉ O'.*1 → B' !! f' = Some (VRef l') →
                              h !! l' = Some o →
                              D !! f' = Some (VRef l') ∧
                              heap s' !! l' = Some o).
Proof.
  intros Hb Ha Hf HO Hl. split.
  - destruct (derive_dict s a B O Ha) as (r & s' & Hrun & Hr & Hg & Hh).
    assert (Hra : r ≠ a) by congruence.
    assert (Hrl : r ≠ l) by congruence.
    assert (Hal : a ≠ l) by congruence.
    assert (Ha' : heap s' !! a = Some (ODict B))
      by (by rewrite Hh, lookup_insert_ne).
    assert (Hr' : heap s' !! r = Some (ODict (apply_overrides B O)))
      by (by rewrite Hh, lookup_insert_eq).
    assert (Hl' : heap s' !! l = Some (OList xs))
      by (by rewrite Hh, lookup_insert_ne).
    assert (Hf' : apply_overrides B O !! f = Some (VRef l)).
    { apply table_get_None in HO. by rewrite apply_overrides_lookup, HO. }
    exists r, s'. split; [done|]. split; [done|].
    split; [by eapply getitem_run|]. split; [by eapply getitem_run|].
    split; [done|].
    intros x. eexists. split.
    + erewrite bind_run; last by eapply getitem_run.
      by apply list_append_run.
    + split.
      * eapply getitem_run; [|exact Hf']. simpl. by rewrite lookup_insert_ne.
      * simpl. by rewrite lookup_insert_eq.
  - destruct (module_dicts _ _ _ _ _ _ _ _ _ _ Hb) as (s' & Hrun & Hold & Hd).
    exists s'. split; [done|]. intros name base O' Hin.
    destruct (Hd _ _ _ Hin) as (B' & HB & HD).
    exists B', (apply_overrides B' O'). do 2 (split; [done|]).
    intros f' l' o Hf' HB' Ho. split; [|by apply Hold].
    apply table_get_None in Hf'. by rewrite apply_overrides_lookup, Hf'.
Qed.

Lemma copy_is_shallow_witness :
  baselines sample_core sample_heap 1%positive 2%positive 3%positive 4%positive
    sample_rf_pal sample_rf_ntsc sample_sys_pal sample_sys_ntsc ∧
  heap (start sample_heap) !! 1%positive = Some (ODict sample_rf_pal) ∧
  sample_rf_pal !! "video_deemp" = Some (VRef 5%positive) ∧
  ("video_deemp" ∉ sample_table.*1) ∧
  heap (start sample_heap) !! 5%positive =
    Some (OList [VNum (Int 100); VNum (Int 400)]) ∧
  (∃ r s', derive (VRef 1%positive) sample_table (start sample_heap) = inr (VRef r, s') ∧
            r ≠ 1%positive ∧
            getitem (VRef 1%positive) "video_deemp" s' = inr (VRef 5%positive, s') ∧
            getitem (VRef r) "video_deemp" s' = inr (VRef 5%positive, s') ∧
            heap s' !! 5%positive = Some (OList [VNum (Int 100); VNum (Int 400)]) ∧
            ∀ x, ∃ s'',
              (n ← getitem (VRef 1%positive) "video_deemp"; list_append n x) s' = inr (tt, s'') ∧
              getitem (VRef r) "video_deemp" s'' = inr (VRef 5%positive, s'') ∧
              heap s'' !! 5%positive = Some (OList ([VNum (Int 100); VNum (Int 400)] ++ [x]))) ∧
  (∃ s', formats_py sample_core (start sample_heap) = inr (tt, s') ∧
         ∀ name base O', (name, base, O') ∈ derivations →
           ∃ B' D, dict_at (State sample_core sample_heap) base = Some B' ∧
                   dict_at s' name = Some D ∧
                   ∀ f' l' o, f' ∉ O'.*1 → B' !! f' = Some (VRef l') →
                              sample_heap !! l' = Some o →
                              D !! f' = Some (VRef l') ∧
                              heap s' !! l' = Some o).
Proof.
  assert (HO : "video_deemp" ∉ sample_table.*1).
  { apply (bool_decide_unpack _). vm_compute. exact I. }
  split; [exact sample_baselines|].
  split; [vm_compute; reflexivity|].
  split; [vm_compute; reflexivity|].
  split; [exact HO|].
  split; [vm_compute; reflexivity|].
  apply (copy_is_shallow sample_core sample_heap 1%positive 2%positive 3%positive 4%positive
    sample_rf_pal sample_rf_ntsc sample_sys_pal sample_sys_ntsc
    (start sample_heap) 1%positive sample_rf_pal sample_table
    "video_deemp" 5%positive [VNum (Int 100); VNum (Int 400)]).
  - exact sample_baselines.
  - vm_compute; reflexivity.
  - vm_compute; reflexivity.
  - exact HO.
  - vm_compute; reflexivity.
Defined.

(** C10. Derivation does not fail and checks nothing. On every dict and
    with every table the idiom returns a dict and raises nothing, and a
    field of the table that the baseline lacks is there afterwards with the
    table's value. The module runs to its end on any four baseline dicts,
    whatever fields they have or lack. *)
Theorem derivation_never_fails
    (core : gmap string value) (h : gmap addr object) (a1 a2 a3 a4 : addr)
    (B1 B2 B3 B4 : gmap string value)
    (s : state) (a : addr) (B : gmap string value) (O : table) :
  baselines core h a1 a2 a3 a4 B1 B2 B3 B4 →
  heap s !! a = Some (ODict B) →
  (∃ d s' D, derive (VRef a) O s = inr (d, s') ∧
             dict_of s' d = Some D ∧
             ∀ f v, B !! f = None → table_get O f = Some v →
                    D !! f = Some v) ∧
  (∃ s', formats_py core (start h) = inr (tt, s') ∧
         ∀ name base O', (name, base, O') ∈ derivations →
           ∃ B' D, dict_at (State core h) base = Some B' ∧
                   dict_at s' name = Some D ∧
                   ∀ f v, B' !! f = None → table_get O' f = Some v →
                          D !! f = Some v).
Proof.
  intros Hb Ha. split.
  - destruct (derive_dict s a B O Ha) as (r & s' & Hrun & _ & _ & Hh).
    exists (VRef r), s', (apply_overrides B O). split; [done|]. split.
    + simpl. by rewrite Hh, lookup_insert_eq.
    + intros f v _ Hf. by rewrite apply_overrides_lookup, Hf.
  - destruct (module_dicts _ _ _ _ _ _ _ _ _ _ Hb) as (s' & Hrun & _ & Hd).
    exists s'. split; [done|]. intros name base O' Hin.
    destruct (Hd _ _ _ Hin) as (B' & HB & HD).
    exists B', (apply_overrides B' O'). do 2 (split; [done|]).
    intros f v _ Hf. by rewrite apply_overrides_lookup, Hf.
Qed.

Lemma derivation_never_fails_witness :
  baselines sample_core sample_heap 1%positive 2%positive 3%positive 4%positive
    sample_rf_pal sample_rf_ntsc sample_sys_pal sample_sys_ntsc ∧
  heap (start sample_heap) !! 4%positive = Some (ODict sample_sys_ntsc) ∧
  (∃ d s' D, derive (VRef 4%positive) sys_ntsc_overrides (start sample_heap) = inr (d, s') ∧
             dict_of s' d = Some D ∧
             ∀ f v, sample_sys_ntsc !! f = None → table_get sys_ntsc_overrides f = Some v →
                    D !! f = Some v) ∧
  (∃ s', formats_py sample_core (start sample_heap) = inr (tt, s') ∧
         ∀ name base O', (name, base, O') ∈ derivations →
           ∃ B' D, dict_at (State sample_core sample_heap) base = Some B' ∧
                   dict_at s' name = Some D ∧
                   ∀ f v, B' !! f = None → table_get O' f = Some v →
                          D !! f = Some v).
Proof.
  split; [exact sample_baselines|].
  split; [vm_compute; reflexivity|].
  apply (derivation_never_fails sample_core sample_heap 1%positive 2%positive 3%positive 4%positive
    sample_rf_pal sample_rf_ntsc sample_sys_pal sample_sys_ntsc
    (start sample_heap) 4%positive sample_sys_ntsc sys_ntsc_overrides).
  - exact sample_baselines.
  - vm_compute; reflexivity.
Defined.

(** ** Beyond the claims: failures, the other two dicts, the namespace *)

Lemma bind_fail {A B} (m : M A) (f : A → M B) s e :
  m s = inl e → (m ≫= f) s = inl e.
Proof. intros H. unfold mbind, M_bind. by rewrite H. Qed.

Lemma import_from_fails core names x s :
  x ∈ names → core !! x = None → import_from core names s = inl ImportError.
Proof.
  revert s. induction names as [|y names IH]; intros s Hin Hx.
  - by apply elem_of_nil in Hin.
  - simpl. destruct (core !! y) as [v|] eqn:Hy; [|done].
    apply elem_of_cons in Hin as [->|Hin]; [congruence|].
    erewrite bind_run; last reflexivity. by apply IH.
Qed.

Lemma import_values_run core v1 v2 v3 v4 h :
  core !! "RFParams_PAL" = Some v1 →
  core !! "RFParams_NTSC" = Some v2 →
  core !! "SysParams_PAL" = Some v3 →
  core !! "SysParams_NTSC" = Some v4 →
  import_from core imported_names (start h) =
    inr (tt, State (imported_values v1 v2 v3 v4) h).
Proof. intros H1 H2 H3 H4. simpl. by rewrite H1, H2, H3, H4. Qed.

Lemma dict_of_Some s v B :
  dict_of s v = Some B ↔ ∃ a, v = VRef a ∧ heap s !! a = Some (ODict B).
Proof.
  split.
  - destruct v as [n|a]; [done|]. simpl.
    destruct (heap s !! a) as [[d| |]|] eqn:E; try done.
    intros [= ->]. by exists a.
  - intros (a & -> & Ha). simpl. by rewrite Ha.
Qed.

(** Copying something that is not a dict raises. *)
Lemma assign_copy_not_dict dst src s v :
  globals s !! src = Some v → dict_of s v = None →
  assign_copy dst src s = inl TypeError.
Proof.
  intros Hg Hv. unfold assign_copy.
  erewrite bind_run; last by (unfold load_name; rewrite Hg).
  apply bind_fail. unfold dict_unpack.
  destruct v as [n|a]; [done|]. simpl in Hv.
  by destruct (heap s !! a) as [[d| |]|].
Qed.

Lemma derive_named_not_dict dst src O s v :
  globals s !! src = Some v → dict_of s v = None →
  derive_named dst src O s = inl TypeError.
Proof.
  intros Hg Hv. unfold derive_named.
  erewrite bind_run; last by (unfold load_name; rewrite Hg).
  apply bind_fail. apply derive_not_dict.
  intros a B -> Ha. simpl in Hv. by rewrite Ha in Hv.
Qed.

(** What a live value refers to does not change when the heap grows. *)
Lemma dict_of_extend g g' h h' v :
  live h v → h ⊆ h' → dict_of (State g' h') v = dict_of (State g h) v.
Proof.
  intros Hv Hsub. destruct v as [n|a]; [done|]. simpl in *.
  destruct Hv as [o Ho]. by rewrite Ho, (lookup_weaken _ _ _ _ Ho Hsub).
Qed.

Lemma heap_extends_1 h o1 :
  h ⊆ <[rf_pal_addr h := o1]> h.
Proof.
  destruct (new_addrs_fresh h) as [_ Hnew].
  apply insert_subseteq, Hnew. rewrite !elem_of_cons. auto.
Qed.

Lemma heap_extends_2 h o1 o2 :
  h ⊆ <[rf_ntsc_addr h := o2]> (<[rf_pal_addr h := o1]> h).
Proof.
  destruct (new_addrs_fresh h) as [Hnd Hnew].
  rewrite !NoDup_cons, !not_elem_of_cons, !elem_of_nil in Hnd.
  destruct Hnd as ((H12 & _) & _).
  etrans; [apply (heap_extends_1 h o1)|].
  apply insert_subseteq, lookup_insert_None. split; [|done].
  apply Hnew. rewrite !elem_of_cons. auto.
Qed.

Lemma heap_extends_3 h o1 o2 o3 :
  h ⊆ <[sys_pal_addr h := o3]>
        (<[rf_ntsc_addr h := o2]> (<[rf_pal_addr h := o1]> h)).
Proof.
  destruct (new_addrs_fresh h) as [Hnd Hnew].
  rewrite !NoDup_cons, !not_elem_of_cons, !elem_of_nil in Hnd.
  destruct Hnd as ((_ & H13 & _) & (H23 & _) & _).
  etrans; [apply (heap_extends_2 h o1 o2)|].
  apply insert_subseteq. rewrite !lookup_insert_None.
  repeat split; try done. apply Hnew. rewrite !elem_of_cons. auto.
Qed.

(** The module up to the last assignment to [RFParams_NTSC_VHS], when the
    two RF baselines are dicts: what is left to run is [sys_part]. *)
Lemma rf_part_run core h a1 a2 B1 B2 v3 v4 :
  core !! "RFParams_PAL" = Some (VRef a1) →
  core !! "RFParams_NTSC" = Some (VRef a2) →
  core !! "SysParams_PAL" = Some v3 →
  core !! "SysParams_NTSC" = Some v4 →
  h !! a1 = Some (ODict B1) →
  h !! a2 = Some (ODict B2) →
  formats_py core (start h) =
    sys_part
      (State
         (<["RFParams_NTSC_VHS" := VRef (rf_ntsc_addr h)]>
          (<["RFParams_PAL_VHS" := VRef (rf_pal_addr h)]>
           (imported_values (VRef a1) (VRef a2) v3 v4)))
         (<[rf_ntsc_addr h := ODict (apply_overrides B2 rf_ntsc_overrides)]>
          (<[rf_pal_addr h := ODict (apply_overrides B1 rf_pal_overrides)]> h))).
Proof.
  intros Hc1 Hc2 Hc3 Hc4 Ha1 Ha2.
  pose proof (import_values_run _ _ _ _ _ h Hc1 Hc2 Hc3 Hc4) as Hi.
  destruct (new_addrs_fresh h) as [Hnd _].
  rewrite !NoDup_cons, !not_elem_of_cons, !elem_of_nil in Hnd.
  destruct Hnd as ((H12 & _) & _).
  destruct (old_addr_not_new h _ _ Ha2) as (H21' & _).
  unfold formats_py, sys_part.
  erewrite bind_run; last exact Hi.
  erewrite bind_run; last by (apply assign_copy_run with (a := a1) (B := B1)).
  simpl heap; simpl globals. fold (rf_pal_addr h).
  erewrite bind_run; last first.
  { apply assign_copy_run with (a := a2) (B := B2); [done|].
    simpl. by rewrite lookup_insert_ne. }
  simpl heap; simpl globals. rewrite dom_insert_L. fold (rf_ntsc_addr h).
  rewrite (insert_insert_ne _ (rf_ntsc_addr h) (rf_pal_addr h)) by done.
  do 5 (erewrite bind_run; last by apply assign_subscript_top).
  rewrite (insert_insert_ne _ (rf_pal_addr h) (rf_ntsc_addr h)) by done.
  do 4 (erewrite bind_run; last by apply assign_subscript_top).
  erewrite bind_run; last first.
  { apply assign_subscript_top; [apply ntsc_color_under_carrier_value | done]. }
  reflexivity.
Qed.

(** When the four names are there and live but one of them is not a
    dict, the module raises [TypeError], and so does the module written
    with the idiom. *)
Lemma module_fails_not_dict core h v1 v2 v3 v4 :
  core !! "RFParams_PAL" = Some v1 →
  core !! "RFParams_NTSC" = Some v2 →
  core !! "SysParams_PAL" = Some v3 →
  core !! "SysParams_NTSC" = Some v4 →
  live h v1 → live h v2 → live h v3 → live h v4 →
  dict_of (start h) v1 = None ∨ dict_of (start h) v2 = None ∨
  dict_of (start h) v3 = None ∨ dict_of (start h) v4 = None →
  formats_py core (start h) = inl TypeError ∧
  formats_py_derived core (start h) = inl TypeError.
Proof.
  intros Hc1 Hc2 Hc3 Hc4 Hl1 Hl2 Hl3 Hl4 Hnone.
  pose proof (import_values_run _ _ _ _ _ h Hc1 Hc2 Hc3 Hc4) as Hi.
  destruct (dict_of (start h) v1) as [B1|] eqn:E1; last first.
  { (* RFParams_PAL is not a dict *)
    split.
    - unfold formats_py. erewrite bind_run; last exact Hi.
      apply bind_fail. by apply assign_copy_not_dict with (v := v1).
    - unfold formats_py_derived. erewrite bind_run; last exact Hi.
      apply bind_fail. by apply derive_named_not_dict with (v := v1). }
  apply dict_of_Some in E1 as (a1 & -> & Ha1). simpl in Ha1.
  destruct (dict_of (start h) v2) as [B2|] eqn:E2; last first.
  { (* RFParams_NTSC is not a dict *)
    split.
    - unfold formats_py. erewrite bind_run; last exact Hi.
      erewrite bind_run; last by (apply assign_copy_run with (a := a1) (B := B1)).
      apply bind_fail. apply assign_copy_not_dict with (v := v2); [done|].
      simpl. fold (rf_pal_addr h).
      erewrite dict_of_extend; [exact E2 | done | apply heap_extends_1].
    - unfold formats_py_derived. erewrite bind_run; last exact Hi.
      erewrite bind_run; last by (apply derive_named_run with (a := a1) (B := B1)).
      apply bind_fail. apply derive_named_not_dict with (v := v2); [done|].
      simpl. fold (rf_pal_addr h).
      erewrite dict_of_extend; [exact E2 | done | apply heap_extends_1]. }
  apply dict_of_Some in E2 as (a2 & -> & Ha2). simpl in Ha2.
  assert (Ha2' : ∀ o1, <[rf_pal_addr h := o1]> h !! a2 = Some (ODict B2)).
  { intros o1. eapply lookup_weaken; [exact Ha2 | apply heap_extends_1]. }
  destruct (dict_of (start h) v3) as [B3|] eqn:E3; last first.
  { (* SysParams_PAL is not a dict *)
    split.
    - rewrite (rf_part_run _ _ _ _ _ _ _ _ Hc1 Hc2 Hc3 Hc4 Ha1 Ha2).
      unfold sys_part. apply bind_fail.
      apply assign_copy_not_dict with (v := v3); [done|].
      erewrite dict_of_extend; [exact E3 | done | apply heap_extends_2].
    - unfold formats_py_derived. erewrite bind_run; last exact Hi.
      erewrite bind_run; last by (apply derive_named_run with (a := a1) (B := B1)).
      simpl heap; simpl globals. fold (rf_pal_addr h).
      erewrite bind_run; last first.
    { apply derive_named_run with (a := a2) (B := B2); [done | apply Ha2']. }
      simpl heap; simpl globals. rewrite dom_insert_L. fold (rf_ntsc_addr h).
      apply bind_fail. apply derive_named_not_dict with (v := v3); [done|].
      erewrite dict_of_extend; [exact E3 | done | apply heap_extends_2]. }
  apply dict_of_Some in E3 as (a3 & -> & Ha3). simpl in Ha3.
  assert (Ha3' : ∀ o1 o2,
    <[rf_ntsc_addr h := o2]> (<[rf_pal_addr h := o1]> h) !! a3 = Some (ODict B3)).
  { intros o1 o2. eapply lookup_weaken; [exact Ha3 | apply heap_extends_2]. }
  (* SysParams_NTSC is not a dict *)
  destruct Hnone as [?|[?|[?|E4]]]; try done.
  split.
  - rewrite (rf_part_run _ _ _ _ _ _ _ _ Hc1 Hc2 Hc3 Hc4 Ha1 Ha2).
    unfold sys_part.
    erewrite bind_run; last first.
    { apply assign_copy_run with (a := a3) (B := B3); [done | apply Ha3']. }
    simpl heap; simpl globals. rewrite !dom_insert_L. fold (sys_pal_addr h).
    apply bind_fail. apply assign_copy_not_dict with (v := v4); [done|].
    erewrite dict_of_extend; [exact E4 | done | apply heap_extends_3].
  - unfold formats_py_derived. erewrite bind_run; last exact Hi.
    erewrite bind_run; last by (apply derive_named_run with (a := a1) (B := B1)).
    simpl heap; simpl globals. fold (rf_pal_addr h).
    erewrite bind_run; last first.
    { apply derive_named_run with (a := a2) (B := B2); [done | apply Ha2']. }
    simpl heap; simpl globals. rewrite dom_insert_L. fold (rf_ntsc_addr h).
    erewrite bind_run; last first.
    { apply derive_named_run with (a := a3) (B := B3); [done | apply Ha3']. }
    simpl heap; simpl globals. rewrite !dom_insert_L. fold (sys_pal_addr h).
    apply derive_named_not_dict with (v := v4); [done|].
    erewrite dict_of_extend; [exact E4 | done | apply heap_extends_3].
Qed.

(** The three ways the module can end on live inputs: a name is missing,
    a baseline is not a dict, or all four are dicts. *)
Lemma module_cases core h :
  live_names core h →
  ((∃ x, x ∈ imported_names ∧ core !! x = None) ∧
   formats_py core (start h) = inl ImportError ∧
   formats_py_derived core (start h) = inl ImportError) ∨
  ((∀ x, x ∈ imported_names → is_Some (core !! x)) ∧
   (∃ x, x ∈ imported_names ∧ dict_at (State core h) x = None) ∧
   formats_py core (start h) = inl TypeError ∧
   formats_py_derived core (start h) = inl TypeError) ∨
  (∃ a1 a2 a3 a4 B1 B2 B3 B4, baselines core h a1 a2 a3 a4 B1 B2 B3 B4).
Proof.
  intros Hlive.
  assert (Hmiss : ∀ x, x ∈ imported_names → core !! x = None →
    (∃ x, x ∈ imported_names ∧ core !! x = None) ∧
    formats_py core (start h) = inl ImportError ∧
    formats_py_derived core (start h) = inl ImportError).
  { intros x Hx Hn. split; [by exists x|].
    split; apply bind_fail; by apply import_from_fails with (x := x). }
  assert (Hin : ∀ i x, imported_names !! i = Some x → x ∈ imported_names).
  { intros i x. apply list_elem_of_lookup_2. }
  destruct (core !! "RFParams_PAL") as [v1|] eqn:Hc1;
    [|left; apply (Hmiss _ (Hin 0%nat _ eq_refl) Hc1)].
  destruct (core !! "RFParams_NTSC") as [v2|] eqn:Hc2;
    [|left; apply (Hmiss _ (Hin 1%nat _ eq_refl) Hc2)].
  destruct (core !! "SysParams_PAL") as [v3|] eqn:Hc3;
    [|left; apply (Hmiss _ (Hin 2%nat _ eq_refl) Hc3)].
  destruct (core !! "SysParams_NTSC") as [v4|] eqn:Hc4;
    [|left; apply (Hmiss _ (Hin 3%nat _ eq_refl) Hc4)].
  right.
  assert (Hall : ∀ x, x ∈ imported_names → is_Some (core !! x)).
  { intros x. unfold imported_names. rewrite !elem_of_cons, elem_of_nil.
    intros [->|[->|[->|[->|[]]]]]; by eexists. }
  pose proof (Hlive _ _ (Hin 0%nat _ eq_refl) Hc1) as Hl1.
  pose proof (Hlive _ _ (Hin 1%nat _ eq_refl) Hc2) as Hl2.
  pose proof (Hlive _ _ (Hin 2%nat _ eq_refl) Hc3) as Hl3.
  pose proof (Hlive _ _ (Hin 3%nat _ eq_refl) Hc4) as Hl4.
  assert (Hbad : ∀ i x v, imported_names !! i = Some x → core !! x = Some v →
    dict_of (start h) v = None →
    dict_of (start h) v1 = None ∨ dict_of (start h) v2 = None ∨
    dict_of (start h) v3 = None ∨ dict_of (start h) v4 = None →
    (∀ x, x ∈ imported_names → is_Some (core !! x)) ∧
    (∃ x, x ∈ imported_names ∧ dict_at (State core h) x = None) ∧
    formats_py core (start h) = inl TypeError ∧
    formats_py_derived core (start h) = inl TypeError).
  { intros i x v Hi Hx Hv Hor. split; [done|]. split.
    - exists x. split; [by eapply Hin|]. unfold dict_at. simpl.
      rewrite Hx. exact Hv.
    - by apply (module_fails_not_dict core h v1 v2 v3 v4). }
  destruct (dict_of (start h) v1) as [B1|] eqn:E1;
    [|left; apply (Hbad 0%nat _ v1 eq_refl Hc1 E1); auto].
  destruct (dict_of (start h) v2) as [B2|] eqn:E2;
    [|left; apply (Hbad 1%nat _ v2 eq_refl Hc2 E2); auto].
  destruct (dict_of (start h) v3) as [B3|] eqn:E3;
    [|left; apply (Hbad 2%nat _ v3 eq_refl Hc3 E3); auto].
  destruct (dict_of (start h) v4) as [B4|] eqn:E4;
    [|left; apply (Hbad 3%nat _ v4 eq_refl Hc4 E4); auto].
  right.
  apply dict_of_Some in E1 as (a1 & -> & Ha1).
  apply dict_of_Some in E2 as (a2 & -> & Ha2).
  apply dict_of_Some in E3 as (a3 & -> & Ha3).
  apply dict_of_Some in E4 as (a4 & -> & Ha4).
  by exists a1, a2, a3, a4, B1, B2, B3, B4.
Qed.



(** The sample namespaces offer live values only. *)
Lemma sample_core_list_live : live_names sample_core_list sample_heap.
Proof.
  intros x v. unfold imported_names. rewrite !elem_of_cons, elem_of_nil.
  intros [->|[->|[->|[->|[]]]]]; vm_compute; intros [= <-]; by eexists.
Defined.

(** X1. When [lddecode.core] lacks one of the four names, the module
    raises [ImportError], in whatever state it starts. *)
Theorem missing_name_raises_ImportError
    (core : gmap string value) (s : state) (x : string) :
  x ∈ imported_names →
  core !! x = None →
  formats_py core s = inl ImportError.
Proof.
  intros Hx Hn. apply bind_fail. by apply import_from_fails with (x := x).
Qed.

Lemma missing_name_raises_ImportError_witness :
  "SysParams_NTSC" ∈ imported_names ∧
  sample_core_short !! "SysParams_NTSC" = None ∧
  formats_py sample_core_short (start sample_heap) = inl ImportError.
Proof.
  assert (Hx : "SysParams_NTSC" ∈ imported_names).
  { apply (bool_decide_unpack _). vm_compute. exact I. }
  split; [exact Hx|]. split; [vm_compute; reflexivity|].
  apply (missing_name_raises_ImportError sample_core_short
           (start sample_heap) "SysParams_NTSC").
  - exact Hx.
  - vm_compute; reflexivity.
Defined.



(** X3. On live inputs the module ends as four derivations run one after
    the other end: with the same exception or in the same state. Making
    both RF copies before the first assignment, and both system copies
    after the last RF assignment, changes nothing. *)
Theorem statement_order_is_immaterial
    (core : gmap string value) (h : gmap addr object) :
  live_names core h →
  formats_py core (start h) = formats_py_derived core (start h).
Proof.
  intros Hlive.
  destruct (module_cases core h Hlive)
    as [(_ & -> & ->)
       |[(_ & _ & -> & ->)
        |(a1 & a2 & a3 & a4 & B1 & B2 & B3 & B4 & Hb)]]; try done.
  by eapply formats_py_is_four_derivations.
Qed.

Lemma statement_order_is_immaterial_witness :
  live_names sample_core_list sample_heap ∧
  formats_py sample_core_list (start sample_heap) =
    formats_py_derived sample_core_list (start sample_heap).
Proof.
  split; [exact sample_core_list_live|].
  apply (statement_order_is_immaterial sample_core_list sample_heap).
  exact sample_core_list_live.
Defined.

(** The baseline of a derivation of the module, read from [baselines]. *)
Lemma baselines_dicts core h a1 a2 a3 a4 B1 B2 B3 B4 :
  baselines core h a1 a2 a3 a4 B1 B2 B3 B4 →
  dict_at (State core h) "RFParams_PAL" = Some B1 ∧
  dict_at (State core h) "RFParams_NTSC" = Some B2 ∧
  dict_at (State core h) "SysParams_PAL" = Some B3 ∧
  dict_at (State core h) "SysParams_NTSC" = Some B4.
Proof.
  intros ((Hc1 & Ha1) & (Hc2 & Ha2) & (Hc3 & Ha3) & (Hc4 & Ha4)).
  unfold dict_at; simpl. rewrite Hc1, Hc2, Hc3, Hc4; simpl.
  by rewrite Ha1, Ha2, Ha3, Ha4.
Qed.

(** X4. The 525-line RF dict: video_bpf_low = 3300000, video_bpf_high =
    5000000, video_bpf_order = 2, video_lpf_freq = 3600000,
    color_under_carrier = (525 * (30 / 1.001)) * 40, and every other field
    as in [RFParams_NTSC]. *)
Theorem standard_B_rf_scenario
    (core : gmap string value) (h : gmap addr object) (a1 a2 a3 a4 : addr)
    (B1 B2 B3 B4 : gmap string value) :
  baselines core h a1 a2 a3 a4 B1 B2 B3 B4 →
  ∃ s' D, formats_py core (start h) = inr (tt, s') ∧
          dict_at s' "RFParams_NTSC_VHS" = Some D ∧
          D !! "video_bpf_low" = Some (VNum (Int 3300000)) ∧
          D !! "video_bpf_high" = Some (VNum (Int 5000000)) ∧
          D !! "video_bpf_order" = Some (VNum (Int 2)) ∧
          D !! "video_lpf_freq" = Some (VNum (Int 3600000)) ∧
          D !! "color_under_carrier" = Some (VNum ntsc_carrier) ∧
          ∀ f : string,
            f ∉ ["video_bpf_low"; "video_bpf_high"; "video_bpf_order";
                 "video_lpf_freq"; "color_under_carrier"] →
            D !! f = B2 !! f.
Proof.
  intros Hb.
  destruct (module_dicts _ _ _ _ _ _ _ _ _ _ Hb) as (s' & Hrun & _ & Hd).
  destruct (Hd "RFParams_NTSC_VHS" "RFParams_NTSC" rf_ntsc_overrides)
    as (B & HB & HD); [unfold derivations; rewrite !elem_of_cons; auto|].
  destruct (baselines_dicts _ _ _ _ _ _ _ _ _ _ Hb) as (_ & HB2 & _).
  assert (B = B2) as -> by congruence.
  exists s', (apply_overrides B2 rf_ntsc_overrides).
  do 2 (split; [done|]).
  do 5 (split; [by rewrite apply_overrides_lookup|]).
  intros f Hf. rewrite apply_overrides_lookup.
  replace (table_get rf_ntsc_overrides f) with (@None value); [done|].
  symmetry. by apply table_get_None.
Qed.

Lemma standard_B_rf_scenario_witness :
  baselines sample_core sample_heap 1%positive 2%positive 3%positive 4%positive
    sample_rf_pal sample_rf_ntsc sample_sys_pal sample_sys_ntsc ∧
  ∃ s' D, formats_py sample_core (start sample_heap) = inr (tt, s') ∧
          dict_at s' "RFParams_NTSC_VHS" = Some D ∧
          D !! "video_bpf_low" = Some (VNum (Int 3300000)) ∧
          D !! "video_bpf_high" = Some (VNum (Int 5000000)) ∧
          D !! "video_bpf_order" = Some (VNum (Int 2)) ∧
          D !! "video_lpf_freq" = Some (VNum (Int 3600000)) ∧
          D !! "color_under_carrier" = Some (VNum ntsc_carrier) ∧
          ∀ f : string,
            f ∉ ["video_bpf_low"; "video_bpf_high"; "video_bpf_order";
                 "video_lpf_freq"; "color_under_carrier"] →
            D !! f = sample_rf_ntsc !! f.
Proof.
  split; [exact sample_baselines|].
  apply (standard_B_rf_scenario sample_core sample_heap 1%positive 2%positive 3%positive 4%positive
    sample_rf_pal sample_rf_ntsc sample_sys_pal sample_sys_ntsc).
  exact sample_baselines.
Defined.

(** X5. The 625-line system dict: ire0 = 4100000, hz_ire = 700000 / 100.0
    = 7000.0, max_ire = 100, burst_abs_ref = 750, and every other field as
    in [SysParams_PAL]. *)
Theorem standard_A_system_scenario
    (core : gmap string value) (h : gmap addr object) (a1 a2 a3 a4 : addr)
    (B1 B2 B3 B4 : gmap string value) :
  baselines core h a1 a2 a3 a4 B1 B2 B3 B4 →
  ∃ s' D, formats_py core (start h) = inr (tt, s') ∧
          dict_at s' "SysParams_PAL_VHS" = Some D ∧
          D !! "ire0" = Some (VNum (Int 4100000)) ∧
          D !! "hz_ire" = Some (VNum (whole 7000)) ∧
          pal_hz_ire = inr (whole 7000) ∧
          whole 7000 = Float (SpecFloat.S754_finite false (7000 * 2 ^ 40) (-40)) ∧
          D !! "max_ire" = Some (VNum (Int 100)) ∧
          D !! "burst_abs_ref" = Some (VNum (Int 750)) ∧
          ∀ f : string,
            f ∉ ["ire0"; "hz_ire"; "max_ire"; "burst_abs_ref"] →
            D !! f = B3 !! f.
Proof.
  intros Hb.
  destruct (module_dicts _ _ _ _ _ _ _ _ _ _ Hb) as (s' & Hrun & _ & Hd).
  destruct (Hd "SysParams_PAL_VHS" "SysParams_PAL" sys_pal_overrides)
    as (B & HB & HD); [unfold derivations; rewrite !elem_of_cons; auto|].
  destruct (baselines_dicts _ _ _ _ _ _ _ _ _ _ Hb) as (_ & _ & HB3 & _).
  assert (B = B3) as -> by congruence.
  exists s', (apply_overrides B3 sys_pal_overrides).
  do 2 (split; [done|]).
  do 2 (split; [by rewrite apply_overrides_lookup|]).
  split; [apply pal_hz_ire_value|].
  split; [vm_compute; reflexivity|].
  do 2 (split; [by rewrite apply_overrides_lookup|]).
  intros f Hf. rewrite apply_overrides_lookup.
  replace (table_get sys_pal_overrides f) with (@None value); [done|].
  symmetry. by apply table_get_None.
Qed.

Lemma standard_A_system_scenario_witness :
  baselines sample_core sample_heap 1%positive 2%positive 3%positive 4%positive
    sample_rf_pal sample_rf_ntsc sample_sys_pal sample_sys_ntsc ∧
  ∃ s' D, formats_py sample_core (start sample_heap) = inr (tt, s') ∧
          dict_at s' "SysParams_PAL_VHS" = Some D ∧
          D !! "ire0" = Some (VNum (Int 4100000)) ∧
          D !! "hz_ire" = Some (VNum (whole 7000)) ∧
          pal_hz_ire = inr (whole 7000) ∧
          whole 7000 = Float (SpecFloat.S754_finite false (7000 * 2 ^ 40) (-40)) ∧
          D !! "max_ire" = Some (VNum (Int 100)) ∧
          D !! "burst_abs_ref" = Some (VNum (Int 750)) ∧
          ∀ f : string,
            f ∉ ["ire0"; "hz_ire"; "max_ire"; "burst_abs_ref"] →
            D !! f = sample_sys_pal !! f.
Proof.
  split; [exact sample_baselines|].
  apply (standard_A_system_scenario sample_core sample_heap 1%positive 2%positive 3%positive 4%positive
    sample_rf_pal sample_rf_ntsc sample_sys_pal sample_sys_ntsc).
  exact sample_baselines.
Defined.




Lemma table_get_Some_elem O f v : table_get O f = Some v → (f, v) ∈ O.
Proof.
  induction O as [|[k w] O IH]; simpl; [done|].
  destruct (table_get O f) as [u|].
  - intros [= ->]. apply elem_of_cons. right. by apply IH.
  - destruct (decide (k = f)) as [->|]; [|done].
    intros [= ->]. apply elem_of_cons. by left.
Qed.

(** The tables of the module hold numbers only. *)
Lemma derivations_values_are_numbers name base O f v :
  (name, base, O) ∈ derivations → table_get O f = Some v → ∃ n, v = VNum n.
Proof.
  intros Hin Hf. apply table_get_Some_elem in Hf. revert Hin Hf.
  unfold derivations. rewrite !elem_of_cons, elem_of_nil.
  intros [E|[E|[E|[E|[]]]]]; injection E as -> -> ->;
    unfold rf_pal_overrides, rf_ntsc_overrides, sys_pal_overrides,
      sys_ntsc_overrides;
    rewrite !elem_of_cons, elem_of_nil; intros Hf;
    repeat (destruct Hf as [[= -> ->]|Hf]; [by eexists|]); done.
Qed.

(** X7. The module stores numbers only: a reference found in a derived
    dict is a reference its baseline holds for the same field. No object
    becomes shared that the baseline did not already lead to. *)
Theorem no_new_references
    (core : gmap string value) (h : gmap addr object) (a1 a2 a3 a4 : addr)
    (B1 B2 B3 B4 : gmap string value) :
  baselines core h a1 a2 a3 a4 B1 B2 B3 B4 →
  ∃ s', formats_py core (start h) = inr (tt, s') ∧
        ∀ name base O, (name, base, O) ∈ derivations →
          ∃ B D, dict_at (State core h) base = Some B ∧
                 dict_at s' name = Some D ∧
                 ∀ f l, D !! f = Some (VRef l) → B !! f = Some (VRef l).
Proof.
  intros Hb.
  destruct (module_dicts _ _ _ _ _ _ _ _ _ _ Hb) as (s' & Hrun & _ & Hd).
  exists s'. split; [done|]. intros name base O Hin.
  destruct (Hd _ _ _ Hin) as (B & HB & HD).
  exists B, (apply_overrides B O). do 2 (split; [done|]).
  intros f l. rewrite apply_overrides_lookup.
  destruct (table_get O f) as [v|] eqn:Hf; [|done].
  destruct (derivations_values_are_numbers _ _ _ _ _ Hin Hf) as [n ->].
  done.
Qed.

Lemma no_new_references_witness :
  baselines sample_core sample_heap 1%positive 2%positive 3%positive 4%positive
    sample_rf_pal sample_rf_ntsc sample_sys_pal sample_sys_ntsc ∧
  ∃ s', formats_py sample_core (start sample_heap) = inr (tt, s') ∧
        ∀ name base O, (name, base, O) ∈ derivations →
          ∃ B D, dict_at (State sample_core sample_heap) base = Some B ∧
                 dict_at s' name = Some D ∧
                 ∀ f l, D !! f = Some (VRef l) → B !! f = Some (VRef l).
Proof.
  split; [exact sample_baselines|].
  apply (no_new_references sample_core sample_heap 1%positive 2%positive 3%positive 4%positive
    sample_rf_pal sample_rf_ntsc sample_sys_pal sample_sys_ntsc).
  exact sample_baselines.
Defined.

(** X8. Deriving again gives an equal dict in a new object: two runs of
    the idiom on one baseline with one table return different objects with
    the same contents. *)
Theorem rederivation_gives_equal_dict
    (s : state) (a : addr) (B : gmap string value) (O : table) :
  heap s !! a = Some (ODict B) →
  ∃ r1 s1 r2 s2 D,
    derive (VRef a) O s = inr (VRef r1, s1) ∧
    derive (VRef a) O s1 = inr (VRef r2, s2) ∧
    r1 ≠ r2 ∧
    dict_of s2 (VRef r1) = Some D ∧
    dict_of s2 (VRef r2) = Some D.
Proof.
  intros Ha.
  destruct (derive_dict s a B O Ha) as (r1 & s1 & Hrun1 & Hr1 & _ & Hh1).
  assert (Ha1 : heap s1 !! a = Some (ODict B)).
  { rewrite Hh1, lookup_insert_ne; [done | congruence]. }
  destruct (derive_dict s1 a B O Ha1) as (r2 & s2 & Hrun2 & Hr2 & _ & Hh2).
  assert (Hne : r1 ≠ r2).
  { intros ->. by rewrite Hh1, lookup_insert_eq in Hr2. }
  exists r1, s1, r2, s2, (apply_overrides B O).
  do 3 (split; [done|]). simpl. rewrite Hh2, Hh1. split.
  - by rewrite lookup_insert_ne, lookup_insert_eq.
  - by rewrite lookup_insert_eq.
Qed.

Lemma rederivation_gives_equal_dict_witness :
  heap (start sample_heap) !! 1%positive = Some (ODict sample_rf_pal) ∧
  ∃ r1 s1 r2 s2 D,
    derive (VRef 1%positive) sample_table (start sample_heap) = inr (VRef r1, s1) ∧
    derive (VRef 1%positive) sample_table s1 = inr (VRef r2, s2) ∧
    r1 ≠ r2 ∧
    dict_of s2 (VRef r1) = Some D ∧
    dict_of s2 (VRef r2) = Some D.
Proof.
  split; [vm_compute; reflexivity|].
  apply (rederivation_gives_equal_dict (start sample_heap) 1%positive
           sample_rf_pal sample_table).
  vm_compute; reflexivity.
Defined.

(** X9. Deriving from a derived dict. The idiom run with a table [O2] on
    the dict derived with [O1] gives the contents that one run with [O1 ++
    O2] on the baseline gives, and it leaves the dict it started from as it
    was. *)
Theorem derivations_chain
    (s : state) (a : addr) (B : gmap string value) (O1 O2 : table) :
  heap s !! a = Some (ODict B) →
  ∃ r1 s1 r2 s2 r3 s3 D,
    derive (VRef a) O1 s = inr (VRef r1, s1) ∧
    derive (VRef r1) O2 s1 = inr (VRef r2, s2) ∧
    derive (VRef a) (O1 ++ O2) s2 = inr (VRef r3, s3) ∧
    dict_of s3 (VRef r2) = Some D ∧
    dict_of s3 (VRef r3) = Some D ∧
    dict_of s3 (VRef r1) = dict_of s1 (VRef r1).
Proof.
  intros Ha.
  destruct (derive_dict s a B O1 Ha) as (r1 & s1 & Hrun1 & Hr1 & _ & Hh1).
  assert (Hr1' : heap s1 !! r1 = Some (ODict (apply_overrides B O1)))
    by (by rewrite Hh1, lookup_insert_eq).
  destruct (derive_dict s1 r1 _ O2 Hr1') as (r2 & s2 & Hrun2 & Hr2 & _ & Hh2).
  assert (Ha2 : heap s2 !! a = Some (ODict B)).
  { rewrite Hh2, Hh1, !lookup_insert_ne; [done | congruence |].
    intros ->. rewrite Hh1, lookup_insert_ne in Hr2; congruence. }
  destruct (derive_dict s2 a B (O1 ++ O2) Ha2)
    as (r3 & s3 & Hrun3 & Hr3 & _ & Hh3).
  assert (H12 : r2 ≠ r1) by congruence.
  assert (H32 : r3 ≠ r2).
  { intros ->. by rewrite Hh2, lookup_insert_eq in Hr3. }
  assert (H31 : r3 ≠ r1).
  { intros ->. by rewrite Hh2, lookup_insert_ne, Hr1' in Hr3. }
  exists r1, s1, r2, s2, r3, s3, (apply_overrides B (O1 ++ O2)).
  do 3 (split; [done|]). simpl. rewrite Hh3, Hh2. split; [|split].
  - rewrite lookup_insert_ne, lookup_insert_eq by done.
    unfold apply_overrides. by rewrite foldl_app.
  - by rewrite lookup_insert_eq.
  - by rewrite !lookup_insert_ne.
Qed.

Lemma derivations_chain_witness :
  heap (start sample_heap) !! 1%positive = Some (ODict sample_rf_pal) ∧
  ∃ r1 s1 r2 s2 r3 s3 D,
    derive (VRef 1%positive) sample_table (start sample_heap) = inr (VRef r1, s1) ∧
    derive (VRef r1) sample_table_2 s1 = inr (VRef r2, s2) ∧
    derive (VRef 1%positive) (sample_table ++ sample_table_2) s2 = inr (VRef r3, s3) ∧
    dict_of s3 (VRef r2) = Some D ∧
    dict_of s3 (VRef r3) = Some D ∧
    dict_of s3 (VRef r1) = dict_of s1 (VRef r1).
Proof.
  split; [vm_compute; reflexivity|].
  apply (derivations_chain (start sample_heap) 1%positive
           sample_rf_pal sample_table sample_table_2).
  vm_compute; reflexivity.
Defined.
